(** * IP_Catalog generators: wrapper construction and command-line handling

    A shallow embedding of the four generator scripts

      - rapidsilicon/ip/axis_interconnect/v1_0/axis_interconnect_gen.py
      - rapidsilicon/ip/fifo/v1_0/fifo_gen.py
      - rapidsilicon/ip/axi_dpram/v1_0/axi_dpram_gen.py
      - rapidsilicon/ip/axi_spi_slave/v1_0/axi_spi_slave_gen.py

    The wrapper constructors run in a state-and-exception monad over the
    LiteX platform (its constraint manager) and the Migen module under
    construction.  The [main] functions run in a writer-and-exception
    monad whose trace records what the process prints and which builder
    operations it invokes. *)

From Stdlib Require Import ZArith String Ascii DecimalString DecimalZ DecimalPos
  QArith_base.
From stdpp Require Import gmap strings list fin_maps.

Close Scope Q_scope.
Open Scope Z_scope.
Open Scope string_scope.
Open Scope list_scope.

(** ** Python values and exceptions *)

(** The values an [argparse.Namespace] attribute or a JSON member can
    hold here: integers, booleans, strings and [None]/[null]. *)
Inductive value :=
| VInt (z : Z)
| VBool (b : bool)
| VStr (s : string)
| VNone.

#[global] Instance value_eq_dec : EqDecision value.
Proof. solve_decision. Defined.

Inductive exn :=
| ConstraintError (name : string)     (* litex: "Resource not found" *)
| TypeError
| ValueError
| FileNotFoundError (path : string).

Inductive result (A : Type) :=
| Ok (a : A)
| Raise (e : exn).
Arguments Ok {A} a.
Arguments Raise {A} e.

Module Py.

(** [str(i)] / ["{}".format(i)] for an integer. *)
Definition str (i : Z) : string := NilZero.string_of_int (Z.to_int i).

(** Truth value of an object, as tested by [if x:] and [bool(x)]. *)
Definition truthy (v : value) : bool :=
  match v with
  | VInt z => negb (Z.eqb z 0)
  | VBool b => b
  | VStr s => negb (String.eqb s "")
  | VNone => false
  end.

(** [bool] is a subclass of [int]: [True] counts as 1, [False] as 0. *)
Definition as_int (v : value) : option Z :=
  match v with
  | VInt z => Some z
  | VBool b => Some (if b then 1 else 0)
  | _ => None
  end.

(** [a == b]. *)
Definition eqb (a b : value) : bool :=
  match as_int a, as_int b with
  | Some x, Some y => Z.eqb x y
  | _, _ => bool_decide (a = b)
  end.

(** [v in l] for a list (or a [range] given by its elements). *)
Definition contains (l : list value) (v : value) : bool :=
  existsb (eqb v) l.

(** [range(n)] and [range(a, b)]. *)
Definition range (n : Z) : list Z := seqZ 0 n.
Definition range2 (a b : Z) : list Z := seqZ a (b - a).

(** [int(s)] on a decimal literal with an optional minus sign. *)
Definition int (s : string) : option Z :=
  Z.of_int <$> NilZero.int_of_string s.

(** [math.ceil(math.log2(n))] for an integer [n]: [math.log2] raises
    [ValueError] on a non-positive argument; on the small positive
    integers used here the rounded-up logarithm is the integer
    [Z.log2_up n]. *)
Definition ceil_log2 (n : Z) : result Z :=
  if Z.leb n 0 then Raise ValueError else Ok (Z.log2_up n).

(** [int((n + 7) / 8)]: true division followed by truncation towards
    zero.  Division by 8 is exact in binary floating point. *)
Definition int_div8_up (n : Z) : Z := Z.quot (n + 7) 8.

(** [s.rfind(c)]: index of the last occurrence, or -1. *)
Fixpoint rfind_from (c : ascii) (s : string) (i found : Z) : Z :=
  match s with
  | EmptyString => found
  | String a s' =>
      rfind_from c s' (i + 1) (if Ascii.eqb a c then i else found)
  end.
Definition rfind (s : string) (c : ascii) : Z := rfind_from c s 0 (-1).

(** [s[a:b]] for [0 <= a]. *)
Definition slice (s : string) (a b : Z) : string :=
  substring (Z.to_nat a) (Z.to_nat (b - a)) s.

Fixpoint has_non_dot (s : string) : bool :=
  match s with
  | EmptyString => false
  | String a s' => negb (Ascii.eqb a ".") || has_non_dot s'
  end.

(** [os.path.splitext(p)[0]] on a POSIX path: the extension starts at
    the last dot, if that dot follows the last slash and some
    character of the file name before it is not a dot. *)
Definition splitext_root (p : string) : string :=
  let sepIndex := rfind p "/" in
  let dotIndex := rfind p "." in
  if Z.gtb dotIndex sepIndex && has_non_dot (slice p (sepIndex + 1) dotIndex)
  then slice p 0 dotIndex
  else p.

Definition nl : string := String (ascii_of_nat 10) EmptyString.

End Py.

(** ** LiteX platform and Migen module state *)

Record AXIStreamInterface := {
  axis_data_width : Z;
  axis_user_width : Z;
  axis_id_width   : Z;
  axis_dest_width : Z;
  axis_keep_width : Z
}.

(** [AXIInterface(...)]: the keyword arguments as given (the generators
    that build one take their values from a JSON document unchecked). *)
Record AXIInterface := {
  axi_data_width    : value;
  axi_address_width : value;
  axi_id_width      : value;
  axi_user_widths   : list (string * value)
}.

Inductive pads :=
| Pins (w : Z)
| Subsignals (subs : list (string * Z))
| StreamPads (i : AXIStreamInterface)     (* AXIStreamInterface.get_ios *)
| AxiPads (i : AXIInterface).             (* AXIInterface.get_ios *)

(** An entry of an IO list: [(name, number, pads)]. *)
Record Resource := {
  res_name   : string;
  res_number : Z;
  res_pads   : pads
}.

Inductive signal :=
| DomainClk (cd : string)                 (* self.cd_x.clk *)
| DomainRst (cd : string)                 (* self.cd_x.rst *)
| Pad (r : Resource)                      (* platform.request(...) *)
| PadField (r : Resource) (f : string)    (* pads.f *)
| CoreSig (attr : string)                 (* core.attr *)
| CoreSelect (i : Z).                     (* interconnect.select[i] *)

Inductive mode := slave | master.

(** A combinatorial statement added with [self.comb += ...]. *)
Inductive stmt :=
| Assign (dst src : signal)                                   (* dst.eq(src) *)
| ConnectStream (i : AXIStreamInterface) (r : Resource) (m : mode)
| ConnectAxi (i : AXIInterface) (r : Resource) (m : mode).

(** The opaque sub-cores, recorded with the arguments they are
    instantiated with. *)
Inductive subcore :=
| FIFO (data_width : Z) (synchronous full_threshold empty_threshold : bool)
       (depth : Z) (first_word_fall_through : bool)
       (empty_value full_value : Z) (BRAM : bool)
| AXISTREAMINTERCONNECT (m_axis s_axis : list AXIStreamInterface)
       (s_count m_count : Z) (last_en id_en dest_en user_en : bool)
       (select_width : Z)
| AXIDPRAM (s_axi_a s_axi_b : AXIInterface)
       (a_pipeline_output b_pipeline_output a_interleave b_interleave : value)
       (size : Q)
| AXISPISLAVE (m_axi : AXIInterface) (dummy_cycles : value).

#[global] Instance AXIStreamInterface_eq_dec : EqDecision AXIStreamInterface.
Proof. solve_decision. Defined.
#[global] Instance AXIInterface_eq_dec : EqDecision AXIInterface.
Proof. solve_decision. Defined.
#[global] Instance pads_eq_dec : EqDecision pads.
Proof. solve_decision. Defined.
#[global] Instance Resource_eq_dec : EqDecision Resource.
Proof. solve_decision. Defined.
#[global] Instance signal_eq_dec : EqDecision signal.
Proof. solve_decision. Defined.

(** The constraint manager of the platform. *)
Record Platform := {
  available : list Resource;
  matched   : list Resource
}.

(** The Migen [Module] being built. *)
Record Module_ := {
  clock_domains : list string;
  comb          : list stmt;
  submodules    : list subcore
}.

(** [OSFPGAPlatform(io=[], ...)] and a fresh [Module]. *)
Definition OSFPGAPlatform : Platform := {| available := []; matched := [] |}.
Definition empty_module : Module_ :=
  {| clock_domains := []; comb := []; submodules := [] |}.

(** ** The construction monad *)

Definition St : Type := Platform * Module_.
Definition W (A : Type) : Type := St -> result (A * St).

Definition ret {A} (a : A) : W A := fun s => Ok (a, s).
Definition bind {A B} (m : W A) (k : A -> W B) : W B :=
  fun s => match m s with
           | Ok (a, s') => k a s'
           | Raise e => Raise e
           end.
Definition raise {A} (e : exn) : W A := fun _ => Raise e.
Definition lift {A} (r : result A) : W A :=
  fun s => match r with Ok a => Ok (a, s) | Raise e => Raise e end.

Declare Scope w_scope.
Delimit Scope w_scope with W.
Notation "'let*' x := m 'in' k" := (bind m (fun x => k))
  (at level 10, x name, m at level 100, k at level 200) : w_scope.
Notation "'let*' ' p := m 'in' k" := (bind m (fun p => k))
  (at level 10, p strict pattern, m at level 100, k at level 200) : w_scope.
Notation "'do' m 'then' k" := (bind m (fun _ => k))
  (at level 10, m at level 100, k at level 200) : w_scope.
Open Scope w_scope.

(** [platform.add_extension(io)]: [self.available.extend(io)]. *)
Definition add_extension (io : list Resource) : W unit :=
  fun '(p, m) =>
    Ok (tt, ({| available := available p ++ io; matched := matched p |}, m)).

Fixpoint lookup_resource (l : list Resource) (name : string) : option Resource :=
  match l with
  | [] => None
  | r :: l' => if String.eqb (res_name r) name then Some r
               else lookup_resource l' name
  end.

Fixpoint remove_resource (l : list Resource) (name : string) : list Resource :=
  match l with
  | [] => []
  | r :: l' => if String.eqb (res_name r) name then l'
               else r :: remove_resource l' name
  end.

(** [platform.request(name)]: the first available resource of that name
    is moved to the matched list; [ConstraintError] when there is none. *)
Definition request (name : string) : W Resource :=
  fun '(p, m) =>
    match lookup_resource (available p) name with
    | None => Raise (ConstraintError name)
    | Some r =>
        Ok (r, ({| available := remove_resource (available p) name;
                   matched := matched p ++ [r] |}, m))
    end.

(** [self.clock_domains.cd_x = ClockDomain()]. *)
Definition new_clock_domain (cd : string) : W unit :=
  fun '(p, m) =>
    Ok (tt, (p, {| clock_domains := clock_domains m ++ [cd];
                   comb := comb m; submodules := submodules m |})).

(** [self.comb += s]. *)
Definition comb_add (s : stmt) : W unit :=
  fun '(p, m) =>
    Ok (tt, (p, {| clock_domains := clock_domains m;
                   comb := comb m ++ [s]; submodules := submodules m |})).

(** [self.submodules += c]. *)
Definition submodule_add (c : subcore) : W unit :=
  fun '(p, m) =>
    Ok (tt, (p, {| clock_domains := clock_domains m;
                   comb := comb m; submodules := submodules m ++ [c] |})).

(** [for x in xs: body], with the loop variable [x] bound in the
    enclosing function scope: it starts with the value [x0] that the name
    had before the loop and keeps the last element after it.  [acc] is
    the list the body appends to.  The result is the value of the name
    [x] once the loop is over, and the list. *)
Fixpoint for_in {A} (xs : list Z) (x0 : Z) (acc : A)
    (body : Z -> A -> W A) : W (Z * A) :=
  match xs with
  | [] => ret (x0, acc)
  | x :: xs' => let* acc' := body x acc in for_in xs' x acc' body
  end.

(** Running a constructor on a fresh module. *)
Definition construct (c : W unit) (p : Platform) : result (Platform * Module_) :=
  match c (p, empty_module) with
  | Ok (_, s) => Ok s
  | Raise e => Raise e
  end.

(** An IO list entry [(name, 0, Pins(w))]. *)
Definition pin (name : string) (w : Z) : Resource :=
  {| res_name := name; res_number := 0; res_pads := Pins w |}.

(** [self.comb += core.attr.eq(platform.request(name))] *)
Definition drive_core (attr name : string) : W unit :=
  let* pad := request name in comb_add (Assign (CoreSig attr) (Pad pad)).

(** [self.comb += platform.request(name).eq(core.attr)] *)
Definition drive_pad (name attr : string) : W unit :=
  let* pad := request name in comb_add (Assign (Pad pad) (CoreSig attr)).

(** [self.comb += self.cd_x.clk.eq(platform.request(name))] and the
    same for [rst]. *)
Definition drive_domain (s : signal) (name : string) : W unit :=
  let* pad := request name in comb_add (Assign s (Pad pad)).

(** ** axis_interconnect_gen.py *)

Module AxisInterconnect.

Definition get_clkin_ios : list Resource :=
  [ pin "clk" 1; pin "rst" 1 ].

Definition get_control_ios (select_width m_count : Z) : list Resource :=
  [ pin ("m" +:+ Py.str m_count +:+ "_select") select_width ].

(** [AXIStreamInterface.get_ios(name)]: one resource of that name. *)
Definition get_ios (i : AXIStreamInterface) (name : string) : list Resource :=
  [ {| res_name := name; res_number := 0; res_pads := StreamPads i |} ].

(** The name chosen by the [if count > 9: ... else: ...] of both
    interface loops: ["s{}_axis".format(i)] above 9 and
    ["s0{}_axis".format(i)] otherwise ([pre] is ["s"] or ["m"]). *)
Definition axis_name (pre : string) (i : Z) : string :=
  if Z.gtb i 9 then pre +:+ Py.str i +:+ "_axis"
  else pre +:+ "0" +:+ Py.str i +:+ "_axis".

(** Body of the slave and of the master loop. *)
Definition interface_body (pre : string) (m : mode)
    (data_width user_width id_width dest_width keep_width : Z)
    (count : Z) (axiss : list AXIStreamInterface)
  : W (list AXIStreamInterface) :=
  let axis := {| axis_data_width := data_width;
                 axis_user_width := user_width;
                 axis_id_width := id_width;
                 axis_dest_width := dest_width;
                 axis_keep_width := keep_width |} in
  do add_extension (get_ios axis (axis_name pre count)) then
  let* pads := request (axis_name pre count) in
  do comb_add (ConnectStream axis pads m) then
  ret (axiss ++ [axis]).

(** Body of the control-signal loop.  The sub-core is opaque: its
    [select] list is taken to have an entry at every index used here. *)
Definition select_body (select_width m_count : Z) (_ : unit) : W unit :=
  do add_extension (get_control_ios select_width m_count) then
  let* pad := request ("m" +:+ Py.str m_count +:+ "_select") in
  comb_add (Assign (CoreSelect m_count) (Pad pad)).

Definition AXISTREAMINTERCONNECTWrapper
    (m_count s_count data_width : Z) (last_en id_en : bool) (id_width : Z)
    (dest_en : bool) (dest_width : Z) (user_en : bool) (user_width : Z)
  : W unit :=
  (* Clocking *)
  do add_extension get_clkin_ios then
  do new_clock_domain "sys" then
  let* clk := request "clk" in
  do comb_add (Assign (DomainClk "sys") (Pad clk)) then
  let* rst := request "rst" in
  do comb_add (Assign (DomainRst "sys") (Pad rst)) then
  (* Keep Width, Select_width Calculation *)
  let keep_width := Py.int_div8_up data_width in
  let* select_width := lift (Py.ceil_log2 s_count) in
  (* Slave Interfaces: for s_count in range(s_count) *)
  let* '(s_count, s_axiss) :=
    for_in (Py.range s_count) s_count []
      (interface_body "s" slave data_width user_width id_width dest_width
         keep_width) in
  (* Master Interfaces: for m_count in range(m_count) *)
  let* '(m_count, m_axiss) :=
    for_in (Py.range m_count) m_count []
      (interface_body "m" master data_width user_width id_width dest_width
         keep_width) in
  (* AXIS-INTERCONNECT *)
  do submodule_add
       (AXISTREAMINTERCONNECT m_axiss s_axiss s_count m_count
          last_en id_en dest_en user_en select_width) then
  (* Interconnect Control Signal: for m_count in range(m_count+1) *)
  let* _ :=
    for_in (Py.range (m_count + 1)) m_count tt (select_body select_width) in
  ret tt.

End AxisInterconnect.

(** ** fifo_gen.py *)

Module Fifo.

Definition get_clkin_ios (data_width : Z) : list Resource :=
  [ pin "clk" 1; pin "rst" 1; pin "wrt_clock" 1; pin "rd_clock" 1;
    pin "din" data_width; pin "dout" data_width;
    pin "wr_en" 1; pin "rd_en" 1; pin "full" 1; pin "empty" 1;
    pin "underflow" 1; pin "overflow" 1;
    pin "prog_full" 1; pin "prog_empty" 1 ].

Definition FIFOWrapper (data_width : Z)
    (synchronous full_threshold empty_threshold : bool) (depth : Z)
    (first_word_fall_through : bool) (empty_value full_value : Z)
    (BRAM : bool) : W unit :=
  (* Clocking *)
  do add_extension (get_clkin_ios data_width) then
  do new_clock_domain "sys" then
  do new_clock_domain "wrt" then
  do new_clock_domain "rd" then
  do submodule_add
       (FIFO data_width synchronous full_threshold empty_threshold depth
          first_word_fall_through empty_value full_value BRAM) then
  do drive_core "din" "din" then
  do drive_pad "dout" "dout" then
  do (if full_threshold then drive_pad "prog_full" "prog_full"
      else ret tt) then
  do (if empty_threshold then drive_pad "prog_empty" "prog_empty"
      else ret tt) then
  do (if synchronous then drive_domain (DomainClk "sys") "clk"
      else
        do drive_domain (DomainClk "wrt") "wrt_clock" then
        drive_domain (DomainClk "rd") "rd_clock") then
  do drive_domain (DomainRst "sys") "rst" then
  do drive_core "wren" "wr_en" then
  do drive_core "rden" "rd_en" then
  do drive_pad "full" "full" then
  do drive_pad "empty" "empty" then
  do drive_pad "underflow" "underflow" then
  drive_pad "overflow" "overflow".

End Fifo.

(** ** axi_dpram_gen.py: the wrapper *)

Module AxiDpram.

Definition get_clkin_ios : list Resource :=
  [ pin "a_clk" 1; pin "a_rst" 1;
    pin "b_clk" 1; pin "b_rst" 1 ].

(** [AXIInterface.get_ios(name)]: one resource of that name. *)
Definition get_ios (i : AXIInterface) (name : string) : list Resource :=
  [ {| res_name := name; res_number := 0; res_pads := AxiPads i |} ].

(** [(2**addr_width)*(data_width/8)]: [TypeError] unless both operands
    are numbers; the float result is exact on the parameter ranges of
    the generator and kept as a rational. *)
Definition size (addr_width data_width : value) : result Q :=
  match Py.as_int addr_width, Py.as_int data_width with
  | Some a, Some d => Ok (Qmult (Qpower (inject_Z 2) a) (Qmake d 8))
  | _, _ => Raise TypeError
  end.

Definition AXIDPRAMWrapper
    (data_width addr_width id_width a_pip_out b_pip_out
     a_interleave b_interleave : value) : W unit :=
  do add_extension get_clkin_ios then
  do new_clock_domain "sys" then
  do drive_domain (DomainClk "sys") "a_clk" then
  do drive_domain (DomainRst "sys") "a_rst" then
  do drive_domain (DomainClk "sys") "b_clk" then
  do drive_domain (DomainRst "sys") "b_rst" then
  (* AXI *)
  let s_axi_a := {| axi_data_width := data_width;
                    axi_address_width := addr_width;
                    axi_id_width := id_width;
                    axi_user_widths := [] |} in
  let s_axi_b := {| axi_data_width := data_width;
                    axi_address_width := addr_width;
                    axi_id_width := id_width;
                    axi_user_widths := [] |} in
  do add_extension (get_ios s_axi_a "s_axi_a") then
  let* pads_a := request "s_axi_a" in
  do comb_add (ConnectAxi s_axi_a pads_a slave) then
  do add_extension (get_ios s_axi_b "s_axi_b") then
  let* pads_b := request "s_axi_b" in
  do comb_add (ConnectAxi s_axi_b pads_b slave) then
  (* AXI-DPRAM *)
  let* sz := lift (size addr_width data_width) in
  submodule_add
    (AXIDPRAM s_axi_a s_axi_b a_pip_out b_pip_out a_interleave
       b_interleave sz).

End AxiDpram.

(** ** axi_spi_slave_gen.py: the wrapper *)

Module AxiSpiSlave.

Definition get_clkin_ios : list Resource :=
  [ pin "axi_aclk" 1; pin "axi_aresetn" 1 ].

Definition get_spi_ios : list Resource :=
  [ pin "test_mode" 1;
    {| res_name := "spi"; res_number := 0;
       res_pads := Subsignals
         [ ("sclk", 1); ("cs", 1); ("mode", 2);
           ("sdi0", 1); ("sdi1", 1); ("sdi2", 1); ("sdi3", 1);
           ("sdo0", 1); ("sdo1", 1); ("sdo2", 1); ("sdo3", 1) ] |} ].

Definition AXISPISLAVEWrapper
    (data_width addr_width id_width user_width dummy_cycles : value)
  : W unit :=
  (* Clocking *)
  do add_extension get_clkin_ios then
  do new_clock_domain "sys" then
  do drive_domain (DomainClk "sys") "axi_aclk" then
  do drive_domain (DomainRst "sys") "axi_aresetn" then
  (* AXI *)
  let axi := {| axi_data_width := data_width;
                axi_address_width := addr_width;
                axi_id_width := id_width;
                axi_user_widths :=
                  [ ("aw_user_width", user_width);
                    ("w_user_width", user_width);
                    ("b_user_width", user_width);
                    ("ar_user_width", user_width);
                    ("r_user_width", user_width) ] |} in
  do add_extension (AxiDpram.get_ios axi "axi_master") then
  let* pads := request "axi_master" in
  do comb_add (ConnectAxi axi pads master) then
  (* AXI SPI SLAVE *)
  do submodule_add (AXISPISLAVE axi dummy_cycles) then
  (* SPI IOS *)
  do add_extension get_spi_ios then
  let* spi_pads := request "spi" in
  do comb_add (Assign (CoreSig "spi_sclk") (PadField spi_pads "sclk")) then
  do comb_add (Assign (CoreSig "spi_cs") (PadField spi_pads "cs")) then
  do comb_add (Assign (CoreSig "spi_sdi0") (PadField spi_pads "sdi0")) then
  do comb_add (Assign (CoreSig "spi_sdi1") (PadField spi_pads "sdi1")) then
  do comb_add (Assign (CoreSig "spi_sdi2") (PadField spi_pads "sdi2")) then
  do comb_add (Assign (CoreSig "spi_sdi3") (PadField spi_pads "sdi3")) then
  do comb_add (Assign (PadField spi_pads "mode") (CoreSig "spi_mode")) then
  do comb_add (Assign (PadField spi_pads "sdo0") (CoreSig "spi_sdo0")) then
  do comb_add (Assign (PadField spi_pads "sdo1") (CoreSig "spi_sdo1")) then
  do comb_add (Assign (PadField spi_pads "sdo2") (CoreSig "spi_sdo2")) then
  do comb_add (Assign (PadField spi_pads "sdo3") (CoreSig "spi_sdo3")) then
  drive_core "test_mode" "test_mode".

End AxiSpiSlave.

(** ** argparse *)

Module Argparse.

Inductive arg_type :=
| type_int            (* type=int *)
| type_bool           (* type=bool *)
| type_none.          (* no type: the argument string itself *)

Inductive action_kind :=
| store (ty : arg_type)
| store_true
| help.

(** One [add_argument] call. *)
Record Argument := {
  option_strings : list string;
  dest    : string;
  action  : action_kind;
  default : value;
  choices : option (list value)
}.

(** The command line as argparse sees it once it has told options and
    their arguments apart: an occurrence of an option string (spelled
    in full) with the argument string it was given, if any, or a
    stray positional word. *)
Inductive token :=
| Opt (o : string) (a : option string)
| Positional (s : string).

(** A parse that does not return ends the process: [parser.error]
    prints the usage and exits with status 2, [-h] prints the help and
    exits with status 0. *)
Inductive parsed :=
| Parsed (ns : gmap string value)
| Error
| Help.

(** [_get_value]: apply the [type] callable to the argument string;
    [None] when it raises [ValueError]. *)
Definition get_value (ty : arg_type) (s : string) : option value :=
  match ty with
  | type_int => VInt <$> Py.int s
  | type_bool => Some (VBool (Py.truthy (VStr s)))
  | type_none => Some (VStr s)
  end.

(** [_check_value]: [value in choices] when choices were given. *)
Definition check_value (a : Argument) (v : value) : bool :=
  match choices a with
  | None => true
  | Some l => Py.contains l v
  end.

(** [_get_values] for one argument string: convert, then check. *)
Definition get_values (a : Argument) (ty : arg_type) (s : string)
  : option value :=
  match get_value ty s with
  | None => None
  | Some v => if check_value a v then Some v else None
  end.

Definition find_option (p : list Argument) (o : string) : option Argument :=
  List.find (fun a => existsb (String.eqb o) (option_strings a)) p.

(** Defaults are set only for the destinations the namespace does not
    have yet (the help action has [default=SUPPRESS]). *)
Definition add_defaults (p : list Argument) (ns : gmap string value)
  : gmap string value :=
  foldl (fun ns a =>
           match action a with
           | help => ns
           | _ => match ns !! dest a with
                  | Some _ => ns
                  | None => <[dest a := default a]> ns
                  end
           end) ns p.

(** Unrecognised words are collected ([extras]) and reported once the
    whole command line has been consumed. *)
Fixpoint consume (p : list Argument) (argv : list token)
    (ns : gmap string value) (extras : bool) : parsed :=
  match argv with
  | [] => if extras then Error else Parsed ns
  | Positional _ :: rest => consume p rest ns true
  | Opt o a :: rest =>
      match find_option p o with
      | None => consume p rest ns true
      | Some arg =>
          match action arg, a with
          | help, None => Help
          | help, Some _ => Error
          | store_true, None =>
              consume p rest (<[dest arg := VBool true]> ns) extras
          | store_true, Some _ => Error
          | store ty, None => Error
          | store ty, Some s =>
              match get_values arg ty s with
              | None => Error
              | Some v => consume p rest (<[dest arg := v]> ns) extras
              end
          end
      end
  end.

(** [parser.parse_args(argv, namespace=ns)]. *)
Definition parse_args (p : list Argument) (argv : list token)
    (ns : gmap string value) : parsed :=
  consume p argv (add_defaults p ns) false.

(** [args.name]; every destination of the parser is present in a
    parsed namespace. *)
Definition getattr (ns : gmap string value) (name : string) : value :=
  match ns !! name with Some v => v | None => VNone end.

Definition help_argument : Argument :=
  {| option_strings := ["-h"; "--help"]; dest := "help"; action := help;
     default := VNone; choices := None |}.

Definition int_argument (o d : string) (dflt : Z)
    (ch : option (list Z)) : Argument :=
  {| option_strings := [o]; dest := d; action := store type_int;
     default := VInt dflt; choices := fmap (M := list) VInt <$> ch |}.

Definition bool_argument (o d : string) (dflt : bool) : Argument :=
  {| option_strings := [o]; dest := d; action := store type_bool;
     default := VBool dflt; choices := None |}.

Definition str_argument (o d : string) (dflt : value) : Argument :=
  {| option_strings := [o]; dest := d; action := store type_none;
     default := dflt; choices := None |}.

Definition flag_argument (o d : string) : Argument :=
  {| option_strings := [o]; dest := d; action := store_true;
     default := VBool false; choices := None |}.

(** The build and JSON groups, the same in the four generators but for
    the default build name. *)
Definition build_and_json_arguments (build_name : string) : list Argument :=
  [ flag_argument "--build" "build";
    str_argument "--build-dir" "build_dir" (VStr "./");
    str_argument "--build-name" "build_name" (VStr build_name);
    str_argument "--json" "json" VNone;
    flag_argument "--json-template" "json_template" ].

End Argparse.

(** ** The process monad of the [main] functions *)

(** What a run prints and which builder operations it invokes, in
    order.  [WrapperCreated] marks the return of the wrapper
    constructor. *)
Inductive event :=
| LogError (msg : string)                       (* logger.error(msg) *)
| Usage                                         (* parser.error *)
| PrintHelp
| PrintJson (ns : gmap string value)            (* print(json.dumps(vars(args))) *)
| Prepare (build_dir build_name : value)        (* rs_builder.prepare *)
| CopyFiles                                     (* rs_builder.copy_files *)
| GenerateTcl                                   (* rs_builder.generate_tcl *)
| WrapperCreated (p : Platform) (m : Module_)
| Build (p : Platform) (m : Module_)            (* rs_builder.build *)
| GenerateVerilog (p : Platform) (m : Module_). (* rs_builder.generate_verilog *)

Inductive halt :=
| SystemExit (code : option Z)
| Uncaught (e : exn).

Definition Run (A : Type) : Type := list event * (halt + A).

Definition rret {A} (a : A) : Run A := ([], inr a).
Definition rbind {A B} (m : Run A) (k : A -> Run B) : Run B :=
  match m with
  | (t, inl h) => (t, inl h)
  | (t, inr a) => let '(t', r) := k a in (t ++ t', r)
  end.
Definition emit (e : event) : Run unit := ([e], inr tt).
Definition stop {A} (h : halt) : Run A := ([], inl h).

Declare Scope run_scope.
Delimit Scope run_scope with run.
Notation "'let*' x := m 'in' k" := (rbind m (fun x => k))
  (at level 10, x name, m at level 100, k at level 200) : run_scope.
Notation "'let*' ' p := m 'in' k" := (rbind m (fun p => k))
  (at level 10, p strict pattern, m at level 100, k at level 200) : run_scope.
Notation "'do' m 'then' k" := (rbind m (fun _ => k))
  (at level 10, m at level 100, k at level 200) : run_scope.

Module Gen.
Import Argparse.
Local Open Scope run_scope.

(** The outcome of [parser.parse_args] inside a run. *)
Definition run_parse (r : parsed) : Run (gmap string value) :=
  match r with
  | Parsed ns => rret ns
  | Error => do emit Usage then stop (SystemExit (Some 2))
  | Help => do emit PrintHelp then stop (SystemExit (Some 0))
  end.

(** [if cond: body]. *)
Definition when (cond : bool) (body : Run unit) : Run unit :=
  if cond then body else rret tt.

(** The import block of axi_dpram_gen.py and axi_spi_slave_gen.py:

      if args.json:
          with open(args.json, 'rt') as f:
              t_args = argparse.Namespace()
              t_args.__dict__.update(json.load(f))
              args = parser.parse_args(namespace=t_args)

    [fs] gives the object a JSON file holds; a path it does not know
    makes [open] raise.  The command line is parsed a second time,
    into the namespace that holds the document. *)
Definition import_json (parser : list Argument) (argv : list token)
    (fs : string -> option (gmap string value))
    (args : gmap string value) : Run (gmap string value) :=
  if Py.truthy (getattr args "json") then
    match getattr args "json" with
    | VStr path =>
        match fs path with
        | None => stop (Uncaught (FileNotFoundError path))
        | Some doc => run_parse (parse_args parser argv doc)
        end
    | _ => stop (Uncaught TypeError)
    end
  else rret args.

(** [platform = OSFPGAPlatform(io=[], ...)] followed by the wrapper
    constructor; an exception it raises ends the run. *)
Definition create (w : W unit) : Run (Platform * Module_) :=
  match construct w OSFPGAPlatform with
  | Ok (p, m) => do emit (WrapperCreated p m) then rret (p, m)
  | Raise e => stop (Uncaught e)
  end.

End Gen.

Module AxiDpramGen.
Import Argparse Gen.
Local Open Scope run_scope.

Definition parser : list Argument :=
  help_argument ::
  [ int_argument "--data_width" "data_width" 32 None;
    int_argument "--addr_width" "addr_width" 16 None;
    int_argument "--id_width" "id_width" 32 None;
    int_argument "--a_pip_out" "a_pip_out" 0 None;
    int_argument "--b_pip_out" "b_pip_out" 0 None;
    int_argument "--a_interleave" "a_interleave" 0 None;
    int_argument "--b_interleave" "b_interleave" 0 None ]
  ++ build_and_json_arguments "axi_dpram_wrapper".

(** One block of the parameter check:

      if args.x not in domain:
          logger.error(msg)
          exit()                                                    *)
Definition parameter_check (v : value) (domain : list value)
    (msg : string) : Run unit :=
  when (negb (Py.contains domain v))
    (do emit (LogError msg) then stop (SystemExit None)).

Definition data_width_param : list value :=
  VInt <$> [8; 16; 32; 64; 128; 256].
Definition addr_range : list value := VInt <$> Py.range2 8 17.
Definition id_range : list value := VInt <$> Py.range2 1 33.
Definition bit_range : list value := VInt <$> Py.range 2.

Definition enter_a_valid (name rest : string) : string :=
  Py.nl +:+ "Enter a valid '" +:+ name +:+ "'" +:+ rest.

Definition main (argv : list token)
    (fs : string -> option (gmap string value)) : Run unit :=
  let* args := run_parse (parse_args parser argv ∅) in
  (* Parameter Check *)
  do parameter_check (getattr args "data_width") data_width_param
       (enter_a_valid "data_width"
          (Py.nl +:+ " [8, 16, 32, 64, 128, 256]")) then
  do parameter_check (getattr args "addr_width") addr_range
       (enter_a_valid "addr_width" " from 8 to 16") then
  do parameter_check (getattr args "id_width") id_range
       (enter_a_valid "id_width" " from 1 to 32") then
  do parameter_check (getattr args "a_pip_out") bit_range
       (enter_a_valid "a_pip_out" " 0 or 1") then
  do parameter_check (getattr args "b_pip_out") bit_range
       (enter_a_valid "b_pip_out" " 0 or 1") then
  do parameter_check (getattr args "a_interleave") bit_range
       (enter_a_valid "a_interleave" " 0 or 1") then
  do parameter_check (getattr args "b_interleave") bit_range
       (enter_a_valid "b_interleave" " 0 or 1") then
  (* Import JSON (Optional) *)
  let* args := import_json parser argv fs args in
  (* Export JSON Template (Optional) *)
  do when (Py.truthy (getattr args "json_template"))
       (emit (PrintJson args)) then
  (* Remove build extension when specified. *)
  let* build_name :=
    match getattr args "build_name" with
    | VStr s => rret (VStr (Py.splitext_root s))
    | _ => stop (Uncaught TypeError)
    end in
  let args := <["build_name" := build_name]> args in
  (* Build Project Directory *)
  do when (Py.truthy (getattr args "build"))
       (do emit (Prepare (getattr args "build_dir")
                   (getattr args "build_name")) then
        do emit CopyFiles then
        emit GenerateTcl) then
  (* Create LiteX Core *)
  let* '(platform, module) :=
    create (AxiDpram.AXIDPRAMWrapper
              (getattr args "data_width") (getattr args "addr_width")
              (getattr args "id_width") (getattr args "a_pip_out")
              (getattr args "b_pip_out") (getattr args "a_interleave")
              (getattr args "b_interleave")) in
  (* Build *)
  when (Py.truthy (getattr args "build")) (emit (Build platform module)).

End AxiDpramGen.

Module AxiSpiSlaveGen.
Import Argparse Gen.
Local Open Scope run_scope.

Definition parser : list Argument :=
  help_argument ::
  [ int_argument "--addr_width" "addr_width" 32 (Some [8; 16; 32; 64]);
    int_argument "--data_width" "data_width" 64 (Some [8; 16; 32]);
    int_argument "--user_width" "user_width" 6 (Some (Py.range2 1 9));
    int_argument "--id_width" "id_width" 3 (Some (Py.range2 1 17));
    int_argument "--dummy_cycles" "dummy_cycles" 32 (Some [16; 32]) ]
  ++ build_and_json_arguments "axi_spi_slave_wrapper".

Definition main (argv : list token)
    (fs : string -> option (gmap string value)) : Run unit :=
  let* args := run_parse (parse_args parser argv ∅) in
  (* Import JSON (Optional) *)
  let* args := import_json parser argv fs args in
  (* Export JSON Template (Optional) *)
  do when (Py.truthy (getattr args "json_template"))
       (emit (PrintJson args)) then
  (* Create Wrapper *)
  let* '(platform, module) :=
    create (AxiSpiSlave.AXISPISLAVEWrapper
              (getattr args "data_width") (getattr args "addr_width")
              (getattr args "id_width") (getattr args "user_width")
              (getattr args "dummy_cycles")) in
  (* Build Project *)
  when (Py.truthy (getattr args "build"))
    (do emit (Prepare (getattr args "build_dir")
                (getattr args "build_name")) then
     do emit CopyFiles then
     do emit GenerateTcl then
     emit (GenerateVerilog platform module)).

End AxiSpiSlaveGen.

(** The argument declarations of fifo_gen.py. *)
Module FifoGen.
Import Argparse.

Definition parser : list Argument :=
  help_argument ::
  [ int_argument "--data_width" "data_width" 36 (Some (Py.range2 1 129));
    int_argument "--depth" "depth" 1024 (Some (Py.range2 2 32769));
    int_argument "--full_value" "full_value" 1010 (Some (Py.range2 1 4095));
    int_argument "--empty_value" "empty_value" 20 (Some (Py.range2 0 4095));
    bool_argument "--synchronous" "synchronous" true;
    bool_argument "--first_word_fall_through" "first_word_fall_through" false;
    bool_argument "--full_threshold" "full_threshold" false;
    bool_argument "--empty_threshold" "empty_threshold" false;
    bool_argument "--BRAM" "BRAM" false ]
  ++ build_and_json_arguments "FIFO_wrapper".

End FifoGen.

(** The argument declarations of axis_interconnect_gen.py. *)
Module AxisInterconnectGen.
Import Argparse.

Definition parser : list Argument :=
  help_argument ::
  [ int_argument "--data_width" "data_width" 8
      (Some [8; 16; 32; 64; 128; 256; 512; 1024]);
    bool_argument "--last_en" "last_en" true;
    bool_argument "--id_en" "id_en" true;
    bool_argument "--dest_en" "dest_en" true;
    bool_argument "--user_en" "user_en" true;
    int_argument "--s_count" "s_count" 4 (Some (Py.range2 2 17));
    int_argument "--m_count" "m_count" 4 (Some (Py.range2 1 17));
    int_argument "--id_width" "id_width" 8 (Some (Py.range2 1 9));
    int_argument "--dest_width" "dest_width" 8 (Some (Py.range2 1 9));
    int_argument "--user_width" "user_width" 1 (Some (Py.range2 1 1025)) ]
  ++ build_and_json_arguments "axis_interconnect_wrapper".

End AxisInterconnectGen.


(** ** What is read off a constructed wrapper *)

(** The pads that drive the interconnect's select inputs, in the order
    they were wired: the select control-signal ports. *)
Definition select_ports (m : Module_) : list Resource :=
  omap (fun s => match s with
                 | Assign (CoreSelect _) (Pad r) => Some r
                 | _ => None
                 end) (comb m).

(** The names of the requested AXI-Stream interface ports. *)
Definition stream_port_names (p : Platform) : list string :=
  omap (fun r => match res_pads r with
                 | StreamPads _ => Some (res_name r)
                 | _ => None
                 end) (matched p).

(** The stream interfaces whose pads were requested. *)
Definition stream_interfaces (p : Platform) : list AXIStreamInterface :=
  omap (fun r => match res_pads r with
                 | StreamPads i => Some i
                 | _ => None
                 end) (matched p).

(** ** The spec's derived quantities (spec.md 4.3) *)

Module Spec.

(** [ceil(a / b)] on integers. *)
Definition ceil_div (a b : Z) : Z := - ((- a) / b).

(** keepWidth = ceil(dataWidth / 8) *)
Definition keepWidth (dataWidth : Z) : Z := ceil_div dataWidth 8.

(** selectWidth = ceil(log2(max(slaveCount, 2))) *)
Definition selectWidth (slaveCount : Z) : Z :=
  Z.log2_up (Z.max slaveCount 2).

(** The name suffix of instance [i]: the two-digit zero-padded decimal
    of [i] below 10, the unpadded decimal from 10 on. *)
Definition suffix (i : Z) : string :=
  if Z.ltb i 10 then "0" +:+ Py.str i else Py.str i.

End Spec.

(** ** The ports the interconnect wrapper requests *)

Definition stream_iface (data_width user_width id_width dest_width : Z)
  : AXIStreamInterface :=
  {| axis_data_width := data_width; axis_user_width := user_width;
     axis_id_width := id_width; axis_dest_width := dest_width;
     axis_keep_width := Py.int_div8_up data_width |}.

Definition stream_port (axis : AXIStreamInterface) (pre : string) (i : Z)
  : Resource :=
  {| res_name := AxisInterconnect.axis_name pre i; res_number := 0;
     res_pads := StreamPads axis |}.

Definition select_port (select_width i : Z) : Resource :=
  pin ("m" +:+ Py.str i +:+ "_select") select_width.

(** ** Clock domains of a wrapper *)

(** The sources assigned to a signal by the combinatorial statements. *)
Definition drivers (m : Module_) (s : signal) : list signal :=
  omap (fun st => match st with
                  | Assign d src => if bool_decide (d = s) then Some src else None
                  | _ => None
                  end) (comb m).

Definition driven (m : Module_) (s : signal) : bool :=
  match drivers m s with [] => false | _ => true end.

(** The clock/reset domain pairs of a module: its clock domains whose
    clock and whose reset are both driven. *)
Definition domain_pairs (m : Module_) : list string :=
  List.filter (fun cd => driven m (DomainClk cd) && driven m (DomainRst cd))
    (clock_domains m).

(** The ports a module exposes are the resources that were requested. *)
Definition port_names (p : Platform) : list string :=
  res_name <$> matched p.

Definition has_port (p : Platform) (name : string) : bool :=
  bool_decide (name ∈ port_names p).

(** ** Validation of the dual-port memory parameters *)

(** The seven blocks of the parameter check, in the order of the source:
    field, allowed values, and what follows the field name in the
    message. *)
Definition parameter_checks : list (string * list value * string) :=
  [ ("data_width", AxiDpramGen.data_width_param,
       Py.nl +:+ " [8, 16, 32, 64, 128, 256]");
    ("addr_width", AxiDpramGen.addr_range, " from 8 to 16");
    ("id_width", AxiDpramGen.id_range, " from 1 to 32");
    ("a_pip_out", AxiDpramGen.bit_range, " 0 or 1");
    ("b_pip_out", AxiDpramGen.bit_range, " 0 or 1");
    ("a_interleave", AxiDpramGen.bit_range, " 0 or 1");
    ("b_interleave", AxiDpramGen.bit_range, " 0 or 1") ].

Definition violates (args : gmap string value)
    (c : string * list value * string) : bool :=
  negb (Py.contains c.1.2 (Argparse.getattr args c.1.1)).

(** Every field whose value is outside its domain. *)
Definition violations (args : gmap string value)
  : list (string * list value * string) :=
  List.filter (violates args) parameter_checks.


(** The error messages a run logs. *)
Definition logged (t : list event) : list string :=
  omap (fun e => match e with LogError msg => Some msg | _ => None end) t.

(** ** Ordering of the builder operations *)

Definition is_build_op (e : event) : bool :=
  match e with
  | Prepare _ _ | CopyFiles | GenerateTcl | Build _ _ | GenerateVerilog _ _ =>
      true
  | _ => false
  end.

(** No builder operation happens before the wrapper has been created. *)
Fixpoint build_after_assembly (t : list event) : bool :=
  match t with
  | [] => true
  | WrapperCreated _ _ :: _ => true
  | e :: t' => negb (is_build_op e) && build_after_assembly t'
  end.

(** The destinations a parser declares. *)
Definition dests (p : list Argparse.Argument) : list string :=
  Argparse.dest <$> p.


(** ** Further observations *)



(** The builder operations of a run, in order. *)
Definition build_ops (t : list event) : list event :=
  List.filter is_build_op t.


(** ** What a command line assigns *)

(** What one token writes to the destination [d], if anything, when the
    command line is accepted. *)
Definition token_value (p : list Argparse.Argument) (t : Argparse.token)
    (d : string) : option value :=
  match t with
  | Argparse.Opt o a =>
      match Argparse.find_option p o with
      | Some arg =>
          if String.eqb (Argparse.dest arg) d then
            match Argparse.action arg, a with
            | Argparse.store ty, Some s => Argparse.get_values arg ty s
            | Argparse.store_true, None => Some (VBool true)
            | _, _ => None
            end
          else None
      | None => None
      end
  | Argparse.Positional _ => None
  end.

(** The value the command line gives to [d]: that of the last token
    that writes it. *)
Fixpoint cli_value (p : list Argparse.Argument) (argv : list Argparse.token)
    (d : string) : option value :=
  match argv with
  | [] => None
  | t :: rest =>
      match cli_value p rest d with
      | Some v => Some v
      | None => token_value p t d
      end
  end.

(** The default declared for [d]: that of the first argument, other
    than the help action, with this destination. *)
Definition default_of (p : list Argparse.Argument) (d : string)
  : option value :=
  Argparse.default
    <$> List.find (fun a => match Argparse.action a with
                            | Argparse.help => false
                            | _ => String.eqb (Argparse.dest a) d
                            end) p.

(** First the command line, then the namespace parsed into, then the
    declared default. *)
Definition resolved (p : list Argparse.Argument) (argv : list Argparse.token)
    (ns : gmap string value) (d : string) : option value :=
  match cli_value p argv d with
  | Some v => Some v
  | None => match ns !! d with
            | Some v => Some v
            | None => default_of p d
            end
  end.

(** ** The builder operations of a whole run *)

(** SPI slave generator: either no builder operation at all, or the
    four of them in order, on the wrapper that was created, in a run
    that ends normally. *)
Definition spi_build_shape (r : Run unit) : Prop :=
  build_ops (fst r) = []
  \/ exists d n p m,
       build_ops (fst r)
       = [Prepare d n; CopyFiles; GenerateTcl; GenerateVerilog p m]
       /\ snd r = inr tt
       /\ WrapperCreated p m ∈ fst r.

(** Dual-port memory generator: no builder operation; or the first
    three and then an exception from the wrapper constructor; or all
    four, the last on the wrapper that was created, in a run that ends
    normally. *)
Definition dpram_build_shape (r : Run unit) : Prop :=
  build_ops (fst r) = []
  \/ (exists d n e,
        build_ops (fst r) = [Prepare d n; CopyFiles; GenerateTcl]
        /\ snd r = inl (Uncaught e))
  \/ exists d n p m,
       build_ops (fst r) = [Prepare d n; CopyFiles; GenerateTcl; Build p m]
       /\ snd r = inr tt
       /\ WrapperCreated p m ∈ fst r.

(** ** Tokens argparse accepts *)

(** A token is accepted when it is an occurrence of a declared option
    other than help with the number of arguments the option takes, and
    the argument string, if there is one, converts and passes the
    choices. *)
Definition token_accepted (p : list Argparse.Argument) (t : Argparse.token)
  : bool :=
  match t with
  | Argparse.Opt o a =>
      match Argparse.find_option p o with
      | Some arg =>
          match Argparse.action arg, a with
          | Argparse.store ty, Some s =>
              match Argparse.get_values arg ty s with
              | Some _ => true
              | None => false
              end
          | Argparse.store_true, None => true
          | _, _ => false
          end
      | None => false
      end
  | Argparse.Positional _ => false
  end.

(** ** Build names *)

(** Whether a character occurs nowhere in a string. *)
Fixpoint lacks (c : ascii) (s : string) : bool :=
  match s with
  | EmptyString => true
  | String a s' => negb (Ascii.eqb a c) && lacks c s'
  end.

(** The names the builder is prepared with, one per call of
    [rs_builder.prepare]. *)
Definition prepared_names (t : list event) : list value :=
  omap (fun e => match e with Prepare _ n => Some n | _ => None end) t.

(** * Properties *)

(** ** Loops over [range] *)

Lemma last_cons_default {A} (xs : list A) : forall x x0,
  List.last (x :: xs) x0 = List.last xs x.
Proof.
  induction xs as [|y ys IH]; intros x x0; [done|].
  change (List.last (y :: ys) x0 = List.last (y :: ys) x).
  by rewrite !IH.
Qed.

Lemma range_last (n : Z) : 1 <= n -> List.last (Py.range n) n = n - 1.
Proof.
  intros Hn. unfold Py.range.
  replace n with (Z.of_nat (S (Z.to_nat (n - 1)))) at 1 by lia.
  rewrite seqZ_S, last_last. lia.
Qed.

Lemma range_length (n : Z) : 0 <= n -> Z.of_nat (length (Py.range n)) = n.
Proof. intros Hn. unfold Py.range. rewrite length_seqZ. lia. Qed.

(** On a platform with nothing left to request, a resource that is
    added and requested at once is the one the request returns. *)
Lemma add_then_request {A} (r : Resource) (k : Resource -> W A) p m :
  available p = [] ->
  bind (add_extension [r]) (fun _ => bind (request (res_name r)) k) (p, m)
  = k r ({| available := []; matched := matched p ++ [r] |}, m).
Proof.
  intros Hav. unfold bind, add_extension, request. rewrite Hav.
  cbn [app available lookup_resource remove_resource matched].
  by rewrite String.eqb_refl.
Qed.

Section InterconnectLoops.
Import AxisInterconnect.
Local Open Scope w_scope.

Variables (data_width user_width id_width dest_width : Z).

Let axis := stream_iface data_width user_width id_width dest_width.

(** One round of an interface loop: the new resource is added,
    requested and wired. *)
Lemma interface_body_run pre md i acc p m :
  available p = [] ->
  interface_body pre md data_width user_width id_width dest_width
    (Py.int_div8_up data_width) i acc (p, m)
  = Ok (acc ++ [axis],
        ({| available := []; matched := matched p ++ [stream_port axis pre i] |},
         {| clock_domains := clock_domains m;
            comb := comb m ++ [ConnectStream axis (stream_port axis pre i) md];
            submodules := submodules m |})).
Proof.
  intros Hav. unfold interface_body.
  etrans; [by apply (add_then_request (stream_port axis pre i))|].
  done.
Qed.

Lemma interface_loop_run pre md xs : forall x0 acc p m,
  available p = [] ->
  for_in xs x0 acc
    (interface_body pre md data_width user_width id_width dest_width
       (Py.int_div8_up data_width)) (p, m)
  = Ok ((List.last xs x0, acc ++ ((fun _ => axis) <$> xs)),
        ({| available := [];
            matched := matched p ++ (stream_port axis pre <$> xs) |},
         {| clock_domains := clock_domains m;
            comb := comb m ++
                    ((fun i => ConnectStream axis (stream_port axis pre i) md)
                       <$> xs);
            submodules := submodules m |})).
Proof.
  induction xs as [|x xs IH]; intros x0 acc p m Hav.
  - simpl. unfold ret. rewrite !app_nil_r, <- Hav. by destruct p, m.
  - cbn [for_in]. unfold bind at 1. rewrite interface_body_run by done.
    rewrite IH by done. cbn [matched comb clock_domains submodules].
    rewrite <- !app_assoc. cbn [fmap list_fmap app].
    do 2 f_equal. by rewrite last_cons_default.
Qed.

Lemma select_body_run sw i p m :
  available p = [] ->
  select_body sw i tt (p, m)
  = Ok (tt,
        ({| available := []; matched := matched p ++ [select_port sw i] |},
         {| clock_domains := clock_domains m;
            comb := comb m ++ [Assign (CoreSelect i) (Pad (select_port sw i))];
            submodules := submodules m |})).
Proof.
  intros Hav. unfold select_body.
  etrans; [by apply (add_then_request (select_port sw i))|].
  done.
Qed.

Lemma select_loop_run sw xs : forall x0 p m,
  available p = [] ->
  for_in xs x0 tt (select_body sw) (p, m)
  = Ok ((List.last xs x0, tt),
        ({| available := [];
            matched := matched p ++ (select_port sw <$> xs) |},
         {| clock_domains := clock_domains m;
            comb := comb m ++
                    ((fun i => Assign (CoreSelect i) (Pad (select_port sw i)))
                       <$> xs);
            submodules := submodules m |})).
Proof.
  induction xs as [|x xs IH]; intros x0 p m Hav.
  - simpl. unfold ret. rewrite !app_nil_r, <- Hav. by destruct p, m.
  - cbn [for_in]. unfold bind at 1. rewrite select_body_run by done.
    rewrite IH by done. cbn [matched comb clock_domains submodules].
    rewrite <- !app_assoc. cbn [fmap list_fmap app].
    do 2 f_equal. by rewrite last_cons_default.
Qed.

End InterconnectLoops.

Section InterconnectOutcome.
Import AxisInterconnect.

Variables (m_count s_count data_width : Z) (last_en id_en : bool)
          (id_width : Z) (dest_en : bool) (dest_width : Z)
          (user_en : bool) (user_width : Z).

Let axis := stream_iface data_width user_width id_width dest_width.
Let sw := Z.log2_up s_count.
Let s_last := List.last (Py.range s_count) s_count.
Let m_last := List.last (Py.range m_count) m_count.

Lemma wrapper_run :
  0 < s_count ->
  construct
    (AXISTREAMINTERCONNECTWrapper m_count s_count data_width last_en id_en
       id_width dest_en dest_width user_en user_width) OSFPGAPlatform
  = Ok ({| available := [];
           matched :=
             get_clkin_ios
             ++ (stream_port axis "s" <$> Py.range s_count)
             ++ (stream_port axis "m" <$> Py.range m_count)
             ++ (select_port sw <$> Py.range (m_last + 1)) |},
        {| clock_domains := ["sys"];
           comb :=
             [ Assign (DomainClk "sys") (Pad (pin "clk" 1));
               Assign (DomainRst "sys") (Pad (pin "rst" 1)) ]
             ++ ((fun i => ConnectStream axis (stream_port axis "s" i) slave)
                   <$> Py.range s_count)
             ++ ((fun i => ConnectStream axis (stream_port axis "m" i) master)
                   <$> Py.range m_count)
             ++ ((fun i => Assign (CoreSelect i) (Pad (select_port sw i)))
                   <$> Py.range (m_last + 1));
           submodules :=
             [ AXISTREAMINTERCONNECT
                 ((fun _ => axis) <$> Py.range m_count)
                 ((fun _ => axis) <$> Py.range s_count)
                 s_last m_last last_en id_en dest_en user_en sw ] |}).
Proof.
  intros Hs. unfold construct, AXISTREAMINTERCONNECTWrapper.
  unfold bind, add_extension, new_clock_domain, request, comb_add, lift.
  cbn -[for_in Py.range Py.ceil_log2 interface_body select_body].
  unfold Py.ceil_log2. destruct (Z.leb_spec s_count 0) as [?|_]; [lia|].
  rewrite interface_loop_run by done.
  rewrite interface_loop_run by done.
  unfold submodule_add.
  rewrite select_loop_run by done.
  unfold ret. cbn [matched comb clock_domains submodules app].
  by rewrite <- !app_assoc.
Qed.

End InterconnectOutcome.

(** ** Reading the ports off the interconnect wrapper *)

Lemma omap_fmap_none {A B C} (f : B -> option C) (g : A -> B) (l : list A) :
  (forall x, f (g x) = None) -> omap f (g <$> l) = [].
Proof.
  intros H. induction l as [|x l IH]; [done|].
  cbn [fmap list_fmap omap list_omap]. change (list_fmap A B g l) with (g <$> l).
  change (list_omap B C f (g <$> l)) with (omap f (g <$> l)).
  by rewrite H, IH.
Qed.

Lemma omap_fmap_some {A B C} (f : B -> option C) (g : A -> B) (h : A -> C)
    (l : list A) :
  (forall x, f (g x) = Some (h x)) -> omap f (g <$> l) = h <$> l.
Proof.
  intros H. induction l as [|x l IH]; [done|].
  cbn [fmap list_fmap omap list_omap]. change (list_fmap A B g l) with (g <$> l).
  change (list_omap B C f (g <$> l)) with (omap f (g <$> l)).
  change (list_fmap A C h l) with (h <$> l).
  by rewrite H, IH.
Qed.

Section InterconnectPorts.
Import AxisInterconnect.

Variables (m_count s_count data_width : Z) (last_en id_en : bool)
          (id_width : Z) (dest_en : bool) (dest_width : Z)
          (user_en : bool) (user_width : Z).

Let axis := stream_iface data_width user_width id_width dest_width.
Let wrapper :=
  construct
    (AXISTREAMINTERCONNECTWrapper m_count s_count data_width last_en id_en
       id_width dest_en dest_width user_en user_width) OSFPGAPlatform.

(** With at least one slave and one master the constructor returns, and
    the ports, wiring and sub-core are as follows. *)
Lemma wrapper_ports :
  1 <= s_count -> 1 <= m_count ->
  exists p m,
    wrapper = Ok (p, m)
    /\ select_ports m = (select_port (Z.log2_up s_count) <$> Py.range m_count)
    /\ Forall (fun r => r ∈ matched p) (select_ports m)
    /\ stream_port_names p
       = (axis_name "s" <$> Py.range s_count)
         ++ (axis_name "m" <$> Py.range m_count)
    /\ stream_interfaces p
       = ((fun _ => axis) <$> Py.range s_count)
         ++ ((fun _ => axis) <$> Py.range m_count)
    /\ submodules m
       = [ AXISTREAMINTERCONNECT
             ((fun _ => axis) <$> Py.range m_count)
             ((fun _ => axis) <$> Py.range s_count)
             (s_count - 1) (m_count - 1) last_en id_en dest_en user_en
             (Z.log2_up s_count) ].
Proof.
  intros Hs Hm. subst wrapper. rewrite wrapper_run by lia.
  rewrite !range_last by lia. replace (m_count - 1 + 1) with m_count by lia.
  eexists _, _. split; [reflexivity|].
  unfold select_ports, stream_port_names, stream_interfaces.
  cbn [comb matched submodules get_clkin_ios].
  rewrite !omap_app.
  repeat split.
  - rewrite (omap_fmap_none _ _ (Py.range s_count)) by done.
    rewrite (omap_fmap_none _ _ (Py.range m_count)) by done.
    by rewrite (omap_fmap_some _ _ (select_port (Z.log2_up s_count))).
  - rewrite (omap_fmap_none _ _ (Py.range s_count)) by done.
    rewrite (omap_fmap_none _ _ (Py.range m_count)) by done.
    rewrite (omap_fmap_some _ _ (select_port (Z.log2_up s_count))) by done.
    apply Forall_forall. intros r Hr.
    rewrite !elem_of_app. auto.
  - rewrite (omap_fmap_some _ _ (axis_name "s")) by done.
    rewrite (omap_fmap_some _ _ (axis_name "m")) by done.
    by rewrite (omap_fmap_none _ _ (Py.range m_count)), app_nil_r.
  - rewrite (omap_fmap_some _ _ (fun _ => axis)) by done.
    rewrite (omap_fmap_some _ _ (fun _ => axis)) by done.
    by rewrite (omap_fmap_none _ _ (Py.range m_count)), app_nil_r.
Qed.

End InterconnectPorts.

(** ** Decimal rendering and interface names *)

Lemma append_length (s t : string) :
  String.length (s +:+ t) = (String.length s + String.length t)%nat.
Proof.
  induction s as [|a s IH]; [done|].
  change (S (String.length (s +:+ t))
          = S (String.length s + String.length t)%nat).
  by f_equal.
Qed.

Lemma append_inj_r (t s1 s2 : string) : s1 +:+ t = s2 +:+ t -> s1 = s2.
Proof.
  revert s2. induction s1 as [|a s1 IH]; intros [|b s2] H; [done| | |].
  - apply (f_equal String.length) in H.
    rewrite !append_length in H. cbn in H. lia.
  - apply (f_equal String.length) in H.
    rewrite !append_length in H. cbn in H. lia.
  - cbn in H. injection H as -> H. f_equal. by apply IH.
Qed.

Lemma int_of_str (z : Z) :
  NilZero.int_of_string (Py.str z) = Some (Z.to_int z).
Proof.
  apply NilZero.isi; destruct z; cbn; intros [= H]; try done;
    by eapply Unsigned.to_uint_nonnil.
Qed.

Lemma str_inj (a b : Z) : Py.str a = Py.str b -> a = b.
Proof.
  intros H. apply to_int_inj.
  apply (f_equal NilZero.int_of_string) in H.
  rewrite !int_of_str in H. congruence.
Qed.

(** A padded one-digit index never reads as an unpadded index above 9. *)
Lemma padded_not_plain (i j : Z) :
  0 <= i <= 9 -> 9 < j -> "0" +:+ Py.str i <> Py.str j.
Proof.
  intros Hi Hj H.
  apply (f_equal NilZero.int_of_string) in H. rewrite int_of_str in H.
  assert (Z.of_int (Z.to_int j) <= 9) as Hle.
  { assert (i = 0 \/ i = 1 \/ i = 2 \/ i = 3 \/ i = 4 \/ i = 5 \/ i = 6
            \/ i = 7 \/ i = 8 \/ i = 9) as Hc by lia.
    destruct Hc as [->|[->|[->|[->|[->|[->|[->|[->|[->| ->]]]]]]]]];
      cbn in H; injection H as <-; by vm_compute. }
  rewrite of_to in Hle. lia.
Qed.

Lemma axis_name_inj (pre : string) (i j : Z) :
  0 <= i -> 0 <= j ->
  AxisInterconnect.axis_name pre i = AxisInterconnect.axis_name pre j -> i = j.
Proof.
  intros Hi Hj. unfold AxisInterconnect.axis_name.
  destruct (Z.gtb_spec i 9) as [Hi9|Hi9], (Z.gtb_spec j 9) as [Hj9|Hj9];
    intros H; apply String.app_inj in H.
  - by apply append_inj_r, str_inj in H.
  - symmetry in H. change ("0" +:+ Py.str j +:+ "_axis")
      with (("0" +:+ Py.str j) +:+ "_axis") in H.
    apply append_inj_r in H. by apply padded_not_plain in H; [|lia..].
  - change ("0" +:+ Py.str i +:+ "_axis")
      with (("0" +:+ Py.str i) +:+ "_axis") in H.
    apply append_inj_r in H. by apply padded_not_plain in H; [|lia..].
  - apply (String.app_inj "0") in H. by apply append_inj_r, str_inj in H.
Qed.

(** The name built by the wrapper is the prefix, the spec's suffix of
    the index and the tail [_axis]. *)
Lemma axis_name_suffix (pre : string) (i : Z) :
  AxisInterconnect.axis_name pre i = pre +:+ Spec.suffix i +:+ "_axis".
Proof.
  unfold AxisInterconnect.axis_name, Spec.suffix.
  destruct (Z.gtb_spec i 9), (Z.ltb_spec i 10); try lia; done.
Qed.

(** ** The interconnect wrapper: claims *)

(** C1.  For every master count M of the schema domain [1,16] (and any
    slave count of its domain), the interconnect wrapper is constructed
    and generates exactly M select control-signal ports, named
    m0_select to m{M-1}_select, each of them requested from the
    platform: the number of select control signals equals the master
    count. *)
Theorem C1_select_ports_equal_master_count
    (M S data_width : Z) (last_en id_en : bool) (id_width : Z)
    (dest_en : bool) (dest_width : Z) (user_en : bool) (user_width : Z) :
  1 <= M <= 16 -> 2 <= S <= 16 ->
  exists p m,
    construct
      (AxisInterconnect.AXISTREAMINTERCONNECTWrapper M S data_width last_en
         id_en id_width dest_en dest_width user_en user_width) OSFPGAPlatform
    = Ok (p, m)
    /\ res_name <$> select_ports m
       = (fun i => "m" +:+ Py.str i +:+ "_select") <$> Py.range M
    /\ Z.of_nat (length (select_ports m)) = M
    /\ Forall (fun r => r ∈ matched p) (select_ports m).
Proof.
  intros HM HS.
  destruct (wrapper_ports M S data_width last_en id_en id_width dest_en
              dest_width user_en user_width) as (p & m & Hw & Hsel & Hin & _);
    [lia..|].
  exists p, m. split; [done|]. rewrite Hsel. repeat split.
  - by rewrite <- list_fmap_compose.
  - rewrite length_fmap. apply range_length. lia.
  - by rewrite <- Hsel.
Qed.

Lemma C1_witness :
  exists p m,
    construct
      (AxisInterconnect.AXISTREAMINTERCONNECTWrapper 4 4 8 true true 8 true 8
         true 1) OSFPGAPlatform
    = Ok (p, m)
    /\ res_name <$> select_ports m
       = (fun i => "m" +:+ Py.str i +:+ "_select") <$> Py.range 4
    /\ Z.of_nat (length (select_ports m)) = 4
    /\ Forall (fun r => r ∈ matched p) (select_ports m).
Proof.
  apply (C1_select_ports_equal_master_count 4 4 8 true true 8 true 8 true 1);
    lia.
Defined.

(** C9.  The interface loops reuse the parameter names as loop
    variables: for S in [2,16] and M in [1,16] the wrapper creates S
    slave and M master interfaces and then instantiates the
    AXISTREAMINTERCONNECT sub-core with s_count = S-1 and m_count = M-1,
    while the select width, computed before the loops, is that of the
    original S. *)
Theorem C9_subcore_counts_one_less
    (M S data_width : Z) (last_en id_en : bool) (id_width : Z)
    (dest_en : bool) (dest_width : Z) (user_en : bool) (user_width : Z) :
  2 <= S <= 16 -> 1 <= M <= 16 ->
  exists p m m_axiss s_axiss,
    construct
      (AxisInterconnect.AXISTREAMINTERCONNECTWrapper M S data_width last_en
         id_en id_width dest_en dest_width user_en user_width) OSFPGAPlatform
    = Ok (p, m)
    /\ submodules m
       = [ AXISTREAMINTERCONNECT m_axiss s_axiss (S - 1) (M - 1)
             last_en id_en dest_en user_en (Spec.selectWidth S) ]
    /\ Z.of_nat (length s_axiss) = S
    /\ Z.of_nat (length m_axiss) = M
    /\ Py.ceil_log2 S = Ok (Spec.selectWidth S).
Proof.
  intros HS HM.
  destruct (wrapper_ports M S data_width last_en id_en id_width dest_en
              dest_width user_en user_width)
    as (p & m & Hw & _ & _ & _ & _ & Hsub); [lia..|].
  assert (Spec.selectWidth S = Z.log2_up S) as Hsw.
  { unfold Spec.selectWidth. by rewrite Z.max_l by lia. }
  eexists p, m, _, _. split; [done|]. rewrite Hsw. split; [exact Hsub|].
  rewrite !length_fmap, !range_length by lia. repeat split.
  unfold Py.ceil_log2. by destruct (Z.leb_spec S 0); [lia|].
Qed.

Lemma C9_witness :
  exists p m m_axiss s_axiss,
    construct
      (AxisInterconnect.AXISTREAMINTERCONNECTWrapper 4 4 8 true true 8 true 8
         true 1) OSFPGAPlatform
    = Ok (p, m)
    /\ submodules m
       = [ AXISTREAMINTERCONNECT m_axiss s_axiss (4 - 1) (4 - 1)
             true true true true (Spec.selectWidth 4) ]
    /\ Z.of_nat (length s_axiss) = 4
    /\ Z.of_nat (length m_axiss) = 4
    /\ Py.ceil_log2 4 = Ok (Spec.selectWidth 4).
Proof.
  apply (C9_subcore_counts_one_less 4 4 8 true true 8 true 8 true 1); lia.
Defined.

Lemma keep_width_choices (data_width : Z) :
  data_width ∈ [8; 16; 32; 64; 128; 256; 512; 1024] ->
  Py.int_div8_up data_width = Spec.keepWidth data_width
  /\ 8 * (Spec.keepWidth data_width - 1) < data_width
     <= 8 * Spec.keepWidth data_width.
Proof.
  rewrite !elem_of_cons, elem_of_nil.
  intros [->|[->|[->|[->|[->|[->|[->|[->|[]]]]]]]]]; by vm_compute.
Qed.

(** C8.  For every data width of the schema's choice set and every slave
    count in [2,16] the keep width of the generated interfaces is
    ceil(dataWidth/8) and the width of the select ports is
    ceil(log2(max(slaveCount,2))), which is at least 1 bit;
    selectWidth(2)=1, selectWidth(4)=2, selectWidth(16)=4, and the
    formula gives 5 at 17 slaves. *)
Theorem C8_keep_and_select_width
    (M S data_width : Z) (last_en id_en : bool) (id_width : Z)
    (dest_en : bool) (dest_width : Z) (user_en : bool) (user_width : Z) :
  data_width ∈ [8; 16; 32; 64; 128; 256; 512; 1024] ->
  2 <= S <= 16 -> 1 <= M <= 16 ->
  (exists p m,
     construct
       (AxisInterconnect.AXISTREAMINTERCONNECTWrapper M S data_width last_en
          id_en id_width dest_en dest_width user_en user_width) OSFPGAPlatform
     = Ok (p, m)
     /\ stream_interfaces p <> []
     /\ Forall (fun i => axis_keep_width i = Spec.keepWidth data_width)
          (stream_interfaces p)
     /\ select_ports m <> []
     /\ Forall (fun r => res_pads r = Pins (Spec.selectWidth S))
          (select_ports m))
  /\ 8 * (Spec.keepWidth data_width - 1) < data_width
     <= 8 * Spec.keepWidth data_width
  /\ 1 <= Spec.selectWidth S
  /\ 2 ^ (Spec.selectWidth S - 1) < Z.max S 2 <= 2 ^ Spec.selectWidth S
  /\ Spec.selectWidth 2 = 1 /\ Spec.selectWidth 4 = 2
  /\ Spec.selectWidth 16 = 4 /\ Spec.selectWidth 17 = 5
  /\ Py.ceil_log2 17 = Ok 5.
Proof.
  intros Hdw HS HM.
  destruct (keep_width_choices data_width Hdw) as [Hkeep Hbound].
  assert (Spec.selectWidth S = Z.log2_up S) as Hsw.
  { unfold Spec.selectWidth. by rewrite Z.max_l by lia. }
  pose proof (Z.log2_up_spec (Z.max S 2) ltac:(lia)) as Hspec.
  fold (Spec.selectWidth S) in Hspec.
  assert (1 <= Spec.selectWidth S) as Hone.
  { rewrite Hsw. assert (0 < Z.log2_up S); [|lia].
    apply Z.log2_up_lt_pow2; [lia|]. change (2 ^ 0) with 1. lia. }
  split; [|by repeat split; try lia; rewrite <- ?Z.sub_1_r in Hspec; lia].
  destruct (wrapper_ports M S data_width last_en id_en id_width dest_en
              dest_width user_en user_width)
    as (p & m & Hw & Hsel & _ & _ & Hifs & _); [lia..|].
  exists p, m. split; [done|]. rewrite Hifs, Hsel, Hsw.
  assert (exists n, Py.range S = 0 :: n) as [ns Hns].
  { unfold Py.range. rewrite seqZ_cons by lia. eauto. }
  assert (exists n, Py.range M = 0 :: n) as [nm Hnm].
  { unfold Py.range. rewrite seqZ_cons by lia. eauto. }
  repeat split.
  - by rewrite Hns.
  - rewrite Forall_app, !Forall_fmap. split; by apply Forall_forall.
  - by rewrite Hnm.
  - rewrite Forall_fmap. by apply Forall_forall.
Qed.

Lemma C8_witness :
  (exists p m,
     construct
       (AxisInterconnect.AXISTREAMINTERCONNECTWrapper 4 4 32 true true 8 true
          8 true 1) OSFPGAPlatform
     = Ok (p, m)
     /\ stream_interfaces p <> []
     /\ Forall (fun i => axis_keep_width i = Spec.keepWidth 32)
          (stream_interfaces p)
     /\ select_ports m <> []
     /\ Forall (fun r => res_pads r = Pins (Spec.selectWidth 4))
          (select_ports m))
  /\ 8 * (Spec.keepWidth 32 - 1) < 32 <= 8 * Spec.keepWidth 32
  /\ 1 <= Spec.selectWidth 4
  /\ 2 ^ (Spec.selectWidth 4 - 1) < Z.max 4 2 <= 2 ^ Spec.selectWidth 4
  /\ Spec.selectWidth 2 = 1 /\ Spec.selectWidth 4 = 2
  /\ Spec.selectWidth 16 = 4 /\ Spec.selectWidth 17 = 5
  /\ Py.ceil_log2 17 = Ok 5.
Proof.
  apply (C8_keep_and_select_width 4 4 32 true true 8 true 8 true 1);
    [|lia|lia].
  rewrite !elem_of_cons. auto.
Defined.

Lemma axis_names_NoDup (pre : string) (n : Z) :
  NoDup (AxisInterconnect.axis_name pre <$> Py.range n).
Proof.
  apply NoDup_fmap_2_strong; [|apply NoDup_seqZ].
  intros x y Hx Hy. unfold Py.range in Hx, Hy.
  apply elem_of_seqZ in Hx, Hy. apply axis_name_inj; lia.
Qed.

Lemma axis_names_disjoint (s m : Z) (x : string) :
  x ∈ AxisInterconnect.axis_name "s" <$> Py.range s ->
  x ∉ AxisInterconnect.axis_name "m" <$> Py.range m.
Proof.
  intros (i & -> & _)%list_elem_of_fmap (j & H & _)%list_elem_of_fmap.
  unfold AxisInterconnect.axis_name in H.
  by destruct (Z.gtb i 9), (Z.gtb j 9).
Qed.

(** C7.  For every slave count S in [2,16] and master count M in
    [1,16], the interface created for index i is named with the
    two-digit zero-padded decimal suffix of i when i < 10 and with the
    unpadded decimal suffix from 10 on (after the prefix s or m, before
    the tail _axis); all generated names are pairwise distinct; for a
    count of 12 the name of index 9 carries 09 and that of index 10
    carries 10. *)
Theorem C7_interface_names
    (M S data_width : Z) (last_en id_en : bool) (id_width : Z)
    (dest_en : bool) (dest_width : Z) (user_en : bool) (user_width : Z) :
  2 <= S <= 16 -> 1 <= M <= 16 ->
  (exists p m,
     construct
       (AxisInterconnect.AXISTREAMINTERCONNECTWrapper M S data_width last_en
          id_en id_width dest_en dest_width user_en user_width) OSFPGAPlatform
     = Ok (p, m)
     /\ stream_port_names p
        = ((fun i => "s" +:+ Spec.suffix i +:+ "_axis") <$> Py.range S)
          ++ ((fun i => "m" +:+ Spec.suffix i +:+ "_axis") <$> Py.range M)
     /\ NoDup (stream_port_names p)
     /\ (S = 12 ->
         stream_port_names p !! 9%nat = Some "s09_axis"
         /\ stream_port_names p !! 10%nat = Some "s10_axis")
     /\ (M = 12 ->
         stream_port_names p !! (Z.to_nat S + 9)%nat = Some "m09_axis"
         /\ stream_port_names p !! (Z.to_nat S + 10)%nat = Some "m10_axis"))
  /\ Spec.suffix 0 = "00" /\ Spec.suffix 1 = "01" /\ Spec.suffix 9 = "09"
  /\ Spec.suffix 10 = "10" /\ Spec.suffix 11 = "11".
Proof.
  intros HS HM. split; [|by vm_compute].
  destruct (wrapper_ports M S data_width last_en id_en id_width dest_en
              dest_width user_en user_width)
    as (p & m & Hw & _ & _ & Hnames & _); [lia..|].
  exists p, m. split; [done|]. rewrite Hnames.
  split; [|split; [|split]].
  - f_equal; apply list_fmap_ext; intros; apply axis_name_suffix.
  - apply NoDup_app. repeat split.
    + apply axis_names_NoDup.
    + apply axis_names_disjoint.
    + apply axis_names_NoDup.
  - intros ->. split.
    + rewrite lookup_app_l by (rewrite length_fmap; vm_compute; lia).
      vm_compute. reflexivity.
    + rewrite lookup_app_l by (rewrite length_fmap; vm_compute; lia).
      vm_compute. reflexivity.
  - intros ->. unfold Py.range at 1 3.
    rewrite !lookup_app_r; rewrite !length_fmap, !length_seqZ; [|lia..].
    replace (Z.to_nat S + 9 - Z.to_nat S)%nat with 9%nat by lia.
    replace (Z.to_nat S + 10 - Z.to_nat S)%nat with 10%nat by lia.
    split; vm_compute; reflexivity.
Qed.

Lemma C7_witness :
  (exists p m,
     construct
       (AxisInterconnect.AXISTREAMINTERCONNECTWrapper 12 12 8 true true 8
          true 8 true 1) OSFPGAPlatform
     = Ok (p, m)
     /\ stream_port_names p
        = ((fun i => "s" +:+ Spec.suffix i +:+ "_axis") <$> Py.range 12)
          ++ ((fun i => "m" +:+ Spec.suffix i +:+ "_axis") <$> Py.range 12)
     /\ NoDup (stream_port_names p)
     /\ (12 = 12 ->
         stream_port_names p !! 9%nat = Some "s09_axis"
         /\ stream_port_names p !! 10%nat = Some "s10_axis")
     /\ (12 = 12 ->
         stream_port_names p !! (Z.to_nat 12 + 9)%nat = Some "m09_axis"
         /\ stream_port_names p !! (Z.to_nat 12 + 10)%nat = Some "m10_axis"))
  /\ Spec.suffix 0 = "00" /\ Spec.suffix 1 = "01" /\ Spec.suffix 9 = "09"
  /\ Spec.suffix 10 = "10" /\ Spec.suffix 11 = "11".
Proof.
  apply (C7_interface_names 12 12 8 true true 8 true 8 true 1); lia.
Defined.

(** ** The FIFO wrapper: clock and reset domains *)

(** C6 as stated fails for the asynchronous FIFO {dataWidth:36,
    depth:1024, synchronous:false}: the module has no domain whose clock
    and reset are both driven (not two), the reset of neither the write
    nor the read domain is driven, and the shared sys domain is still
    bound, its reset being driven from rst. *)
Lemma C6_counterexample :
  exists p m,
    construct (Fifo.FIFOWrapper 36 false false false 1024 false 20 1010 false)
      OSFPGAPlatform = Ok (p, m)
    /\ length (domain_pairs m) <> 2%nat
    /\ domain_pairs m = []
    /\ drivers m (DomainRst "wrt") = []
    /\ drivers m (DomainRst "rd") = []
    /\ drivers m (DomainRst "sys") = [Pad (pin "rst" 1)].
Proof.
  eexists _, _. split; [vm_compute; reflexivity|].
  vm_compute. repeat split; congruence.
Qed.

(** C6, amended.  With synchronous=true the module has exactly one
    clock/reset domain pair, sys, driven from clk and rst, and exposes
    no wrt_clock or rd_clock port.  With synchronous=false it drives
    the clocks of the write and read domains from wrt_clock and rd_clock
    and exposes no clk port; it drives the reset of neither of them, and
    the reset of the shared sys domain is still driven from rst, so that
    no domain has both its clock and its reset driven. *)
Theorem C6_fifo_clock_domains
    (data_width : Z) (full_threshold empty_threshold : bool) (depth : Z)
    (first_word_fall_through : bool) (empty_value full_value : Z)
    (BRAM : bool) :
  (exists p m,
     construct
       (Fifo.FIFOWrapper data_width true full_threshold empty_threshold depth
          first_word_fall_through empty_value full_value BRAM) OSFPGAPlatform
     = Ok (p, m)
     /\ clock_domains m = ["sys"; "wrt"; "rd"]
     /\ domain_pairs m = ["sys"]
     /\ drivers m (DomainClk "sys") = [Pad (pin "clk" 1)]
     /\ drivers m (DomainRst "sys") = [Pad (pin "rst" 1)]
     /\ drivers m (DomainClk "wrt") = [] /\ drivers m (DomainRst "wrt") = []
     /\ drivers m (DomainClk "rd") = [] /\ drivers m (DomainRst "rd") = []
     /\ has_port p "clk" = true /\ has_port p "rst" = true
     /\ has_port p "wrt_clock" = false /\ has_port p "rd_clock" = false)
  /\
  (exists p m,
     construct
       (Fifo.FIFOWrapper data_width false full_threshold empty_threshold depth
          first_word_fall_through empty_value full_value BRAM) OSFPGAPlatform
     = Ok (p, m)
     /\ clock_domains m = ["sys"; "wrt"; "rd"]
     /\ domain_pairs m = []
     /\ drivers m (DomainClk "wrt") = [Pad (pin "wrt_clock" 1)]
     /\ drivers m (DomainClk "rd") = [Pad (pin "rd_clock" 1)]
     /\ drivers m (DomainRst "wrt") = [] /\ drivers m (DomainRst "rd") = []
     /\ drivers m (DomainClk "sys") = []
     /\ drivers m (DomainRst "sys") = [Pad (pin "rst" 1)]
     /\ has_port p "wrt_clock" = true /\ has_port p "rd_clock" = true
     /\ has_port p "rst" = true /\ has_port p "clk" = false).
Proof.
  split; destruct full_threshold, empty_threshold;
    (eexists _, _; split; [vm_compute; reflexivity|];
     vm_compute; repeat split; reflexivity).
Qed.

(** ** Boolean parameters on the command line *)




(** On the command line of the interconnect generator,
    [--last_en False] leaves the last signal enabled. *)
Lemma interconnect_last_en_False :
  exists ns,
    Argparse.parse_args AxisInterconnectGen.parser
      [Argparse.Opt "--last_en" (Some "False")] ∅ = Argparse.Parsed ns
    /\ Argparse.getattr ns "last_en" = VBool true.
Proof.
  eexists. split; [vm_compute; reflexivity|]. vm_compute. reflexivity.
Qed.

(** ** Runs of the generators *)

Lemma rbind_rret_l {A B} (a : A) (k : A -> Run B) : rbind (rret a) k = k a.
Proof. unfold rbind, rret. by destruct (k a). Qed.

Lemma fst_rbind {A B} (m : Run A) (k : A -> Run B) :
  fst (rbind m k)
  = match snd m with
    | inl _ => fst m
    | inr a => fst m ++ fst (k a)
    end.
Proof. destruct m as [t [h|a]]; [done|]. cbn. by destruct (k a). Qed.

Lemma parameter_check_pass (v : value) (domain : list value) (msg : string) :
  Py.contains domain v = true ->
  AxiDpramGen.parameter_check v domain msg = rret tt.
Proof. intros H. unfold AxiDpramGen.parameter_check. by rewrite H. Qed.







(** ** Validation in the dual-port memory generator *)





(** ** Values imported from a JSON document *)


(** ** Order of the builder operations *)


Lemma build_after_assembly_app (t t' : list event) :
  Forall (fun e => is_build_op e = false) t ->
  build_after_assembly t' = true ->
  build_after_assembly (t ++ t') = true.
Proof.
  intros Ht Ht'. induction Ht as [|e t He _ IH]; [done|].
  cbn [app build_after_assembly]. rewrite IH, He. by destruct e.
Qed.

Lemma run_parse_no_build (r : Argparse.parsed) :
  Forall (fun e => is_build_op e = false) (fst (Gen.run_parse r)).
Proof. destruct r; repeat constructor. Qed.

Lemma import_json_no_build p argv fs args :
  Forall (fun e => is_build_op e = false)
    (fst (Gen.import_json p argv fs args)).
Proof.
  unfold Gen.import_json. destruct (Py.truthy _); [|constructor].
  destruct (Argparse.getattr args "json"); try constructor.
  destruct (fs s); [apply run_parse_no_build|constructor].
Qed.

(** The sibling generator for the SPI slave invokes the builder only
    once the wrapper exists, in every run. *)
Lemma spi_build_after_assembly argv fs :
  build_after_assembly (fst (AxiSpiSlaveGen.main argv fs)) = true.
Proof.
  unfold AxiSpiSlaveGen.main. rewrite fst_rbind.
  destruct (snd (Gen.run_parse _)) as [h|args] eqn:Hp.
  { rewrite <- (app_nil_r (fst _)).
    by apply build_after_assembly_app; [apply run_parse_no_build|]. }
  apply build_after_assembly_app; [apply run_parse_no_build|].
  rewrite fst_rbind.
  destruct (snd (Gen.import_json _ _ _ _)) as [h|args'] eqn:Hi.
  { rewrite <- (app_nil_r (fst _)).
    by apply build_after_assembly_app; [apply import_json_no_build|]. }
  apply build_after_assembly_app; [apply import_json_no_build|].
  rewrite fst_rbind.
  destruct (Py.truthy (Argparse.getattr args' "json_template"));
    cbn [Gen.when emit rret snd fst app]; rewrite fst_rbind;
    unfold Gen.create;
    destruct (construct _ OSFPGAPlatform) as [[p m]|e]; done.
Qed.

(** ** Unknown keys of an imported document *)

Lemma find_option_dest (p : list Argparse.Argument) (o : string)
    (arg : Argparse.Argument) :
  Argparse.find_option p o = Some arg -> Argparse.dest arg ∈ dests p.
Proof.
  intros H. apply List.find_some in H as [H _].
  apply list_elem_of_In in H. unfold dests. by apply list_elem_of_fmap_2.
Qed.

(** Whether the command line parses does not depend on the namespace it
    is parsed into, and only declared destinations are written. *)
Lemma consume_other_namespace (p : list Argparse.Argument)
    (argv : list Argparse.token) :
  forall (ns1 ns2 r1 : gmap string value) (extras : bool),
    Argparse.consume p argv ns1 extras = Argparse.Parsed r1 ->
    exists r2,
      Argparse.consume p argv ns2 extras = Argparse.Parsed r2
      /\ forall k, k ∉ dests p -> r2 !! k = ns2 !! k.
Proof.
  induction argv as [|[o a|s] argv IH]; intros ns1 ns2 r1 extras H;
    cbn [Argparse.consume] in *.
  - destruct extras; [done|]. by exists ns2.
  - destruct (Argparse.find_option p o) as [arg|] eqn:Hfind;
      [|by eapply IH].
    pose proof (find_option_dest _ _ _ Hfind) as Hdest.
    destruct (Argparse.action arg) as [ty| |], a as [s|]; try done.
    + destruct (Argparse.get_values arg ty s) as [v|]; [|done].
      destruct (IH _ (<[Argparse.dest arg := v]> ns2) _ _ H) as (r2 & Hr & Hk).
      exists r2. split; [done|]. intros k Hnot.
      rewrite Hk by done. apply lookup_insert_ne.
      intros Heq. apply Hnot. by rewrite <- Heq.
    + destruct (IH _ (<[Argparse.dest arg := VBool true]> ns2) _ _ H)
        as (r2 & Hr & Hk).
      exists r2. split; [done|]. intros k Hnot.
      rewrite Hk by done. apply lookup_insert_ne.
      intros Heq. apply Hnot. by rewrite <- Heq.
  - by eapply IH.
Qed.





(** * Further properties of the wrappers *)








(** * Further properties of the command-line handling *)

Lemma consume_lookup (p : list Argparse.Argument)
    (argv : list Argparse.token) (d : string) :
  forall (ns r : gmap string value) (extras : bool),
    Argparse.consume p argv ns extras = Argparse.Parsed r ->
    r !! d = match cli_value p argv d with
             | Some v => Some v
             | None => ns !! d
             end.
Proof.
  induction argv as [|[o a|s] argv IH]; intros ns r extras H;
    cbn [Argparse.consume cli_value token_value] in *.
  - destruct extras; [done|]. by injection H as ->.
  - destruct (Argparse.find_option p o) as [arg|] eqn:Hfind.
    2:{ rewrite (IH _ _ _ H). by destruct (cli_value p argv d). }
    destruct (Argparse.action arg) as [ty| |], a as [s|]; try done.
    + destruct (Argparse.get_values arg ty s) as [v|]; [|done].
      rewrite (IH _ _ _ H). destruct (cli_value p argv d); [done|].
      destruct (String.eqb_spec (Argparse.dest arg) d) as [->|Hne].
      * apply lookup_insert_eq.
      * by apply lookup_insert_ne.
    + rewrite (IH _ _ _ H). destruct (cli_value p argv d); [done|].
      destruct (String.eqb_spec (Argparse.dest arg) d) as [->|Hne].
      * apply lookup_insert_eq.
      * by apply lookup_insert_ne.
  - rewrite (IH _ _ _ H). by destruct (cli_value p argv d).
Qed.

Lemma add_defaults_lookup (p : list Argparse.Argument) (d : string) :
  forall ns : gmap string value,
    Argparse.add_defaults p ns !! d
    = match ns !! d with
      | Some v => Some v
      | None => default_of p d
      end.
Proof.
  unfold Argparse.add_defaults, default_of.
  induction p as [|a p IH]; intros ns; [cbn; by destruct (ns !! d)|].
  cbn [foldl List.find]. rewrite IH.
  destruct (Argparse.action a) eqn:Hact; [| |done];
    (destruct (ns !! Argparse.dest a) as [w|] eqn:Hd;
     destruct (String.eqb_spec (Argparse.dest a) d) as [Heq|Hne];
     [ by rewrite <- Heq, Hd
     | done
     | by rewrite <- Heq, lookup_insert_eq, Hd
     | by rewrite lookup_insert_ne ]).
Qed.

(** Precedence.  In the namespace [parse_args] returns, every
    destination holds the value of the last option occurrence on the
    command line that writes it; failing that, the value the namespace
    it was given already had; failing that, the declared default. *)
Theorem parse_args_precedence
    (p : list Argparse.Argument) (argv : list Argparse.token)
    (ns r : gmap string value) (d : string) :
  Argparse.parse_args p argv ns = Argparse.Parsed r ->
  r !! d = resolved p argv ns d.
Proof.
  intros H. unfold Argparse.parse_args in H. unfold resolved.
  rewrite (consume_lookup _ _ d _ _ _ H).
  destruct (cli_value p argv d); [done|]. apply add_defaults_lookup.
Qed.

Lemma parse_args_precedence_witness :
  (<["addr_width" := VInt 12]>
     (<["data_width" := VInt 64]>
        (Argparse.add_defaults AxiDpramGen.parser
           ({[ "data_width" := VInt 16; "id_width" := VInt 4 ]}
              : gmap string value))))
    !! "data_width"
  = resolved AxiDpramGen.parser
      [Argparse.Opt "--data_width" (Some "64");
       Argparse.Opt "--addr_width" (Some "12")]
      ({[ "data_width" := VInt 16; "id_width" := VInt 4 ]}
         : gmap string value) "data_width".
Proof.
  apply (parse_args_precedence AxiDpramGen.parser
           [Argparse.Opt "--data_width" (Some "64");
            Argparse.Opt "--addr_width" (Some "12")]).
  vm_compute. reflexivity.
Defined.

(** Precedence across the JSON import of the dual-port memory and SPI
    slave generators: once the document is imported, every destination
    holds the value given on the command line if there is one, else the
    value of the document if it has the key, else the declared
    default. *)
Theorem import_json_precedence
    (p : list Argparse.Argument) (argv : list Argparse.token)
    (fs : string -> option (gmap string value))
    (args doc : gmap string value) (path : string) :
  Argparse.parse_args p argv ∅ = Argparse.Parsed args ->
  Argparse.getattr args "json" = VStr path ->
  path <> "" ->
  fs path = Some doc ->
  exists ns,
    Gen.import_json p argv fs args = ([], inr ns)
    /\ forall d, ns !! d = resolved p argv doc d.
Proof.
  intros Hparse Hjson Hpath Hfs. unfold Gen.import_json.
  rewrite Hjson, Hfs. cbn [Py.truthy].
  destruct (String.eqb_spec path "") as [|_]; [done|]. cbn [negb].
  destruct (consume_other_namespace p argv _ (Argparse.add_defaults p doc)
              _ _ Hparse) as (ns & Hns & _).
  exists ns. fold (Argparse.parse_args p argv doc) in Hns.
  rewrite Hns. split; [done|]. intros d.
  by apply parse_args_precedence.
Qed.

Lemma import_json_precedence_witness :
  exists ns,
    Gen.import_json AxiSpiSlaveGen.parser
      [Argparse.Opt "--json" (Some "cfg.json");
       Argparse.Opt "--id_width" (Some "5")]
      (fun path => if String.eqb path "cfg.json"
                   then Some ({[ "id_width" := VInt 9; "user_width" := VInt 2 ]}
                               : gmap string value)
                   else None)
      (<["id_width" := VInt 5]>
         (<["json" := VStr "cfg.json"]>
            (Argparse.add_defaults AxiSpiSlaveGen.parser ∅)))
    = ([], inr ns)
    /\ forall d,
         ns !! d
         = resolved AxiSpiSlaveGen.parser
             [Argparse.Opt "--json" (Some "cfg.json");
              Argparse.Opt "--id_width" (Some "5")]
             ({[ "id_width" := VInt 9; "user_width" := VInt 2 ]}
                : gmap string value) d.
Proof.
  apply (import_json_precedence AxiSpiSlaveGen.parser
           [Argparse.Opt "--json" (Some "cfg.json");
            Argparse.Opt "--id_width" (Some "5")] _ _ _ "cfg.json").
  - vm_compute. reflexivity.
  - vm_compute. reflexivity.
  - discriminate.
  - reflexivity.
Defined.

Lemma add_defaults_parsed (p : list Argparse.Argument)
    (argv : list Argparse.token) (ns : gmap string value) :
  Argparse.parse_args p argv ∅ = Argparse.Parsed ns ->
  Argparse.add_defaults p ns = ns.
Proof.
  intros H. apply map_eq. intros d. rewrite add_defaults_lookup.
  destruct (ns !! d) eqn:Hd; [done|].
  rewrite (parse_args_precedence _ _ _ _ d H) in Hd. unfold resolved in Hd.
  destruct (cli_value p argv d); [done|]. by rewrite lookup_empty in Hd.
Qed.

(** Round trip of the JSON template.  Let a run of the dual-port memory
    or of the SPI slave generator parse its command line into a
    namespace (which is what [--json-template] prints), and let a later
    run be given that document with [--json path]: the import yields
    the same namespace with [json] set to the path, so that every
    parameter of the first run is reproduced. *)
Theorem template_round_trip
    (p : list Argparse.Argument) (argv : list Argparse.token)
    (fs : string -> option (gmap string value))
    (ns : gmap string value) (path : string) :
  p = AxiDpramGen.parser \/ p = AxiSpiSlaveGen.parser ->
  Argparse.parse_args p argv ∅ = Argparse.Parsed ns ->
  path <> "" ->
  fs path = Some ns ->
  exists args,
    Argparse.parse_args p [Argparse.Opt "--json" (Some path)] ∅
    = Argparse.Parsed args
    /\ Gen.import_json p [Argparse.Opt "--json" (Some path)] fs args
       = ([], inr (<["json" := VStr path]> ns)).
Proof.
  intros Hp Hparse Hpath Hfs.
  assert (Argparse.find_option p "--json"
          = Some (Argparse.str_argument "--json" "json" VNone)) as Hfind
    by (destruct Hp as [-> | ->]; by vm_compute).
  assert (forall ns0, Argparse.parse_args p [Argparse.Opt "--json" (Some path)] ns0
          = Argparse.Parsed (<["json" := VStr path]> (Argparse.add_defaults p ns0)))
    as Hone.
  { intros ns0. unfold Argparse.parse_args. cbn [Argparse.consume].
    by rewrite Hfind. }
  eexists. split; [apply Hone|]. unfold Gen.import_json.
  unfold Argparse.getattr. rewrite lookup_insert_eq. cbn [Py.truthy].
  destruct (String.eqb_spec path "") as [|_]; [done|]. cbn [negb].
  rewrite Hfs, Hone. cbn [Gen.run_parse rret].
  by rewrite (add_defaults_parsed p argv ns Hparse).
Qed.

Lemma template_round_trip_witness :
  exists args,
    Argparse.parse_args AxiDpramGen.parser
      [Argparse.Opt "--json" (Some "t.json")] ∅ = Argparse.Parsed args
    /\ Gen.import_json AxiDpramGen.parser
         [Argparse.Opt "--json" (Some "t.json")]
         (fun path =>
            if String.eqb path "t.json"
            then Some (<["json_template" := VBool true]>
                         (<["id_width" := VInt 8]>
                            (Argparse.add_defaults AxiDpramGen.parser ∅)))
            else None) args
       = ([], inr (<["json" := VStr "t.json"]>
                     (<["json_template" := VBool true]>
                        (<["id_width" := VInt 8]>
                           (Argparse.add_defaults AxiDpramGen.parser ∅))))).
Proof.
  apply (template_round_trip AxiDpramGen.parser
           [Argparse.Opt "--id_width" (Some "8");
            Argparse.Opt "--json-template" None]).
  - left. reflexivity.
  - vm_compute. reflexivity.
  - discriminate.
  - reflexivity.
Defined.

(** * Further properties of the runs *)

Lemma snd_rbind {A B} (m : Run A) (k : A -> Run B) :
  snd (rbind m k)
  = match snd m with
    | inl h => inl h
    | inr a => snd (k a)
    end.
Proof. destruct m as [t [h|a]]; [done|]. cbn. by destruct (k a). Qed.

Lemma build_ops_app (t t' : list event) :
  build_ops (t ++ t') = build_ops t ++ build_ops t'.
Proof. apply List.filter_app. Qed.

Lemma spi_build_shape_rbind {A} (m : Run A) (k : A -> Run unit) :
  build_ops (fst m) = [] ->
  (forall a, spi_build_shape (k a)) ->
  spi_build_shape (rbind m k).
Proof.
  intros Hm Hk. unfold spi_build_shape.
  rewrite fst_rbind, snd_rbind. destruct (snd m) as [h|a]; [by left|].
  rewrite build_ops_app, Hm. cbn [app].
  destruct (Hk a) as [H|(d & n & p & w & H1 & H2 & H3)]; [by left|].
  right. exists d, n, p, w. rewrite elem_of_app. auto.
Qed.

Lemma dpram_build_shape_rbind {A} (m : Run A) (k : A -> Run unit) :
  build_ops (fst m) = [] ->
  (forall a, dpram_build_shape (k a)) ->
  dpram_build_shape (rbind m k).
Proof.
  intros Hm Hk. unfold dpram_build_shape.
  rewrite fst_rbind, snd_rbind. destruct (snd m) as [h|a]; [by left|].
  rewrite build_ops_app, Hm. cbn [app].
  destruct (Hk a) as [H|[(d & n & e & H1 & H2)
                        |(d & n & p & w & H1 & H2 & H3)]]; [by left| |].
  - right. left. by exists d, n, e.
  - right. right. exists d, n, p, w. rewrite elem_of_app. auto.
Qed.

Lemma build_ops_run_parse (r : Argparse.parsed) :
  build_ops (fst (Gen.run_parse r)) = [].
Proof. by destruct r. Qed.

Lemma build_ops_import_json p argv fs args :
  build_ops (fst (Gen.import_json p argv fs args)) = [].
Proof.
  unfold Gen.import_json. destruct (Py.truthy _); [|done].
  destruct (Argparse.getattr args "json"); try done.
  destruct (fs s); [apply build_ops_run_parse|done].
Qed.

Lemma build_ops_parameter_check v domain msg :
  build_ops (fst (AxiDpramGen.parameter_check v domain msg)) = [].
Proof.
  unfold AxiDpramGen.parameter_check. by destruct (negb _).
Qed.

(** The builder of the SPI slave generator is driven in the fixed order
    prepare, copy_files, generate_tcl, generate_verilog, all four or
    none: in every run, whatever the command line and the files, the
    builder operations are either absent or exactly these four, the
    last given the wrapper that was created, and then the run ends
    normally. *)
Theorem spi_builder_operations argv fs :
  spi_build_shape (AxiSpiSlaveGen.main argv fs).
Proof.
  unfold AxiSpiSlaveGen.main.
  apply spi_build_shape_rbind; [apply build_ops_run_parse|]. intros args.
  apply spi_build_shape_rbind; [apply build_ops_import_json|]. intros args'.
  apply spi_build_shape_rbind; [by destruct (Py.truthy _)|]. intros _.
  unfold Gen.create.
  destruct (construct _ OSFPGAPlatform) as [[p m]|e]; [|by left].
  unfold spi_build_shape.
  destruct (Py.truthy (Argparse.getattr args' "build")); [|by left].
  right. eexists _, _, p, m. cbn. repeat split. apply list_elem_of_here.
Qed.

(** The builder of the dual-port memory generator: in every run the
    builder operations are absent; or prepare, copy_files, generate_tcl
    followed by an exception of the wrapper constructor; or those three
    and build on the wrapper that was created, the run ending
    normally.  The build never happens without the three preparatory
    operations, and never in a run that stops early. *)
Theorem dpram_builder_operations argv fs :
  dpram_build_shape (AxiDpramGen.main argv fs).
Proof.
  unfold AxiDpramGen.main.
  apply dpram_build_shape_rbind; [apply build_ops_run_parse|]. intros args.
  do 7 (apply dpram_build_shape_rbind;
        [apply build_ops_parameter_check|]; intros _).
  apply dpram_build_shape_rbind; [apply build_ops_import_json|]. intros args'.
  apply dpram_build_shape_rbind; [by destruct (Py.truthy _)|]. intros _.
  apply dpram_build_shape_rbind;
    [by destruct (Argparse.getattr args' "build_name")|]. intros build_name.
  set (args'' := <["build_name" := build_name]> args').
  unfold Gen.create, dpram_build_shape.
  destruct (Py.truthy (Argparse.getattr args'' "build"));
    destruct (construct _ OSFPGAPlatform) as [[p m]|e]; cbn.
  - right. right. eexists _, _, p, m. repeat split.
    rewrite !elem_of_cons. auto.
  - right. left. by eexists _, _, e.
  - by left.
  - by left.
Qed.

(** ** Where parsed values come from *)

Lemma cli_value_origin (p : list Argparse.Argument)
    (argv : list Argparse.token) (d : string) (v : value) :
  cli_value p argv d = Some v ->
  exists arg,
    arg ∈ p /\ Argparse.dest arg = d
    /\ ((exists ty s, Argparse.action arg = Argparse.store ty
                      /\ Argparse.get_values arg ty s = Some v)
        \/ (Argparse.action arg = Argparse.store_true /\ v = VBool true)).
Proof.
  induction argv as [|t argv IH]; [done|]. cbn [cli_value].
  destruct (cli_value p argv d) as [w|]; [intros [= <-]; by apply IH|].
  clear IH. destruct t as [o a|s]; [|done]. cbn [token_value].
  destruct (Argparse.find_option p o) as [arg|] eqn:Hfind; [|done].
  apply List.find_some in Hfind as [Hin _]. apply list_elem_of_In in Hin.
  destruct (String.eqb_spec (Argparse.dest arg) d) as [Hd|]; [|done].
  destruct (Argparse.action arg) as [ty| |] eqn:Hact, a as [s|]; try done.
  - intros Hv. exists arg. eauto 10.
  - intros [= <-]. exists arg. eauto 10.
Qed.

Lemma default_of_origin (p : list Argparse.Argument) (d : string) (v : value) :
  default_of p d = Some v ->
  exists arg, arg ∈ p /\ Argparse.dest arg = d /\ Argparse.default arg = v.
Proof.
  unfold default_of. destruct (List.find _ p) as [arg|] eqn:Hfind; [|done].
  intros [= <-]. apply List.find_some in Hfind as [Hin Hd].
  apply list_elem_of_In in Hin. exists arg. split; [done|]. split; [|done].
  destruct (Argparse.action arg); try done; by apply String.eqb_eq.
Qed.

(** A value parsed from the command line alone is the declared default
    of its argument or was converted and checked from an argument
    string (or is the True of a flag). *)
Lemma parsed_value_origin (p : list Argparse.Argument)
    (argv : list Argparse.token) (ns : gmap string value) (d : string)
    (v : value) :
  Argparse.parse_args p argv ∅ = Argparse.Parsed ns ->
  ns !! d = Some v ->
  exists arg,
    arg ∈ p /\ Argparse.dest arg = d
    /\ (Argparse.default arg = v
        \/ (exists ty s, Argparse.action arg = Argparse.store ty
                         /\ Argparse.get_values arg ty s = Some v)
        \/ (Argparse.action arg = Argparse.store_true /\ v = VBool true)).
Proof.
  intros Hparse Hv. rewrite (parse_args_precedence _ _ _ _ d Hparse) in Hv.
  unfold resolved in Hv. destruct (cli_value p argv d) as [w|] eqn:Hcli.
  - injection Hv as ->.
    destruct (cli_value_origin _ _ _ _ Hcli) as (arg & ? & ? & ?). eauto.
  - rewrite lookup_empty in Hv.
    destruct (default_of_origin _ _ _ Hv) as (arg & ? & ? & ?). eauto 10.
Qed.

(** Every declared destination is present after parsing. *)
Lemma parsed_value_present (p : list Argparse.Argument)
    (argv : list Argparse.token) (ns0 ns : gmap string value) (d : string) :
  Argparse.parse_args p argv ns0 = Argparse.Parsed ns ->
  is_Some (default_of p d) ->
  is_Some (ns !! d).
Proof.
  intros Hparse [v Hv]. rewrite (parse_args_precedence _ _ _ _ d Hparse).
  unfold resolved. destruct (cli_value p argv d); [done|].
  destruct (ns0 !! d); [done|]. by rewrite Hv.
Qed.

Lemma contains_ints (l : list Z) (v : value) :
  Py.contains (VInt <$> l) v = true ->
  exists z, Py.as_int v = Some z /\ z ∈ l.
Proof.
  unfold Py.contains. rewrite existsb_exists.
  intros (x & Hx & Heq). apply list_elem_of_In, list_elem_of_fmap in Hx.
  destruct Hx as (z & -> & Hz). unfold Py.eqb in Heq.
  destruct (Py.as_int v) as [y|] eqn:Hv.
  - cbn in Heq. apply Z.eqb_eq in Heq as ->. eauto.
  - apply bool_decide_eq_true in Heq. by subst.
Qed.

(** ** Valid command lines of the dual-port memory generator *)

Lemma dpram_build_name_str (argv : list Argparse.token)
    (args : gmap string value) :
  Argparse.parse_args AxiDpramGen.parser argv ∅ = Argparse.Parsed args ->
  exists s, Argparse.getattr args "build_name" = VStr s.
Proof.
  intros Hparse.
  destruct (parsed_value_present _ _ _ _ "build_name" Hparse) as [v Hv];
    [eexists; vm_compute; reflexivity|].
  unfold Argparse.getattr. rewrite Hv.
  destruct (parsed_value_origin _ _ _ _ _ Hparse Hv) as (arg & Hin & Hd & Ho).
  apply list_elem_of_In in Hin.
  cbv [AxiDpramGen.parser app Argparse.build_and_json_arguments In] in Hin.
  repeat (destruct Hin as [<-|Hin]; [try discriminate Hd|]); [|done].
  destruct Ho as [<-|[(ty & s & [= <-] & Hg)|[[=] _]]]; [by eexists|].
  cbv in Hg. injection Hg as <-. by eexists.
Qed.

Lemma dpram_construct_numeric
    (data_width addr_width id_width a_pip_out b_pip_out a_interleave
     b_interleave : value) (a d : Z) :
  Py.as_int addr_width = Some a -> Py.as_int data_width = Some d ->
  exists p m sz,
    construct
      (AxiDpram.AXIDPRAMWrapper data_width addr_width id_width a_pip_out
         b_pip_out a_interleave b_interleave) OSFPGAPlatform
    = Ok (p, m)
    /\ submodules m
       = [ AXIDPRAM
             {| axi_data_width := data_width; axi_address_width := addr_width;
                axi_id_width := id_width; axi_user_widths := [] |}
             {| axi_data_width := data_width; axi_address_width := addr_width;
                axi_id_width := id_width; axi_user_widths := [] |}
             a_pip_out b_pip_out a_interleave b_interleave sz ].
Proof.
  intros Ha Hd.
  unfold construct, AxiDpram.AXIDPRAMWrapper, AxiDpram.size.
  unfold bind, add_extension, new_clock_domain, request, comb_add, lift,
    drive_domain, submodule_add.
  rewrite Ha, Hd. cbn. by eexists _, _, _.
Qed.

Lemma getattr_insert_ne (ns : gmap string value) (k d : string) (v : value) :
  k <> d -> Argparse.getattr (<[k := v]> ns) d = Argparse.getattr ns d.
Proof. intros H. unfold Argparse.getattr. by rewrite lookup_insert_ne. Qed.

Lemma violations_nil (args : gmap string value) :
  violations args = [] ->
  Forall (fun c => Py.contains c.1.2 (Argparse.getattr args c.1.1) = true)
    parameter_checks.
Proof.
  unfold violations. intros H. apply Forall_forall. intros c Hc.
  apply list_elem_of_In in Hc.
  destruct (Py.contains c.1.2 (Argparse.getattr args c.1.1)) eqn:E; [done|].
  assert (In c (List.filter (violates args) parameter_checks)) as Hin.
  { apply List.filter_In. split; [done|]. unfold violates. by rewrite E. }
  by rewrite H in Hin.
Qed.

(** Every command line the dual-port memory generator accepts, whose
    seven parameters are in their domains and which names no JSON file,
    leads to a wrapper: nothing is logged, the constructor is called
    with exactly the parsed parameters and returns, and the run ends
    normally. *)
Theorem dpram_valid_cli_builds_wrapper
    (argv : list Argparse.token) (fs : string -> option (gmap string value))
    (args : gmap string value) :
  Argparse.parse_args AxiDpramGen.parser argv ∅ = Argparse.Parsed args ->
  violations args = [] ->
  Py.truthy (Argparse.getattr args "json") = false ->
  exists p m a sz,
    snd (AxiDpramGen.main argv fs) = inr tt
    /\ logged (fst (AxiDpramGen.main argv fs)) = []
    /\ WrapperCreated p m ∈ fst (AxiDpramGen.main argv fs)
    /\ a = {| axi_data_width := Argparse.getattr args "data_width";
              axi_address_width := Argparse.getattr args "addr_width";
              axi_id_width := Argparse.getattr args "id_width";
              axi_user_widths := [] |}
    /\ submodules m
       = [ AXIDPRAM a a (Argparse.getattr args "a_pip_out")
             (Argparse.getattr args "b_pip_out")
             (Argparse.getattr args "a_interleave")
             (Argparse.getattr args "b_interleave") sz ].
Proof.
  intros Hparse Hviol Hjson.
  pose proof (violations_nil _ Hviol) as Hall.
  unfold parameter_checks in Hall.
  repeat (apply Forall_cons in Hall as [?H Hall]). cbn [fst snd] in *.
  destruct (contains_ints _ _ H) as (d & Hd & _).
  destruct (contains_ints _ _ H0) as (a & Ha & _).
  destruct (dpram_build_name_str _ _ Hparse) as [bn Hbn].
  unfold AxiDpramGen.main. rewrite Hparse. cbn [Gen.run_parse].
  rewrite rbind_rret_l.
  rewrite !parameter_check_pass, !rbind_rret_l by done.
  unfold Gen.import_json. rewrite Hjson, rbind_rret_l, Hbn.
  destruct (dpram_construct_numeric
              (Argparse.getattr args "data_width")
              (Argparse.getattr args "addr_width")
              (Argparse.getattr args "id_width")
              (Argparse.getattr args "a_pip_out")
              (Argparse.getattr args "b_pip_out")
              (Argparse.getattr args "a_interleave")
              (Argparse.getattr args "b_interleave") a d Ha Hd)
    as (p & m & sz & Hc & Hsub).
  eexists p, m, _, sz.
  destruct (Py.truthy (Argparse.getattr args "json_template"));
    cbn [Gen.when emit rret rbind app];
    rewrite !getattr_insert_ne by done;
    (destruct (Py.truthy (Argparse.getattr args "build"));
     cbn [Gen.when emit rret rbind app];
     rewrite ?getattr_insert_ne by done; unfold Gen.create; rewrite Hc;
     cbn [Gen.when emit rret rbind app fst snd logged omap list_omap];
     repeat split; try done; rewrite !elem_of_cons; auto 10).
Qed.

Lemma dpram_valid_cli_builds_wrapper_witness :
  exists p m a sz,
    snd (AxiDpramGen.main [Argparse.Opt "--data_width" (Some "64")]
           (fun _ => None)) = inr tt
    /\ logged (fst (AxiDpramGen.main [Argparse.Opt "--data_width" (Some "64")]
                      (fun _ => None))) = []
    /\ WrapperCreated p m
       ∈ fst (AxiDpramGen.main [Argparse.Opt "--data_width" (Some "64")]
                (fun _ => None))
    /\ a = {| axi_data_width :=
                Argparse.getattr
                  (<["data_width" := VInt 64]>
                     (Argparse.add_defaults AxiDpramGen.parser ∅))
                  "data_width";
              axi_address_width :=
                Argparse.getattr
                  (<["data_width" := VInt 64]>
                     (Argparse.add_defaults AxiDpramGen.parser ∅))
                  "addr_width";
              axi_id_width :=
                Argparse.getattr
                  (<["data_width" := VInt 64]>
                     (Argparse.add_defaults AxiDpramGen.parser ∅))
                  "id_width";
              axi_user_widths := [] |}
    /\ submodules m
       = [ AXIDPRAM a a
             (Argparse.getattr
                (<["data_width" := VInt 64]>
                   (Argparse.add_defaults AxiDpramGen.parser ∅)) "a_pip_out")
             (Argparse.getattr
                (<["data_width" := VInt 64]>
                   (Argparse.add_defaults AxiDpramGen.parser ∅)) "b_pip_out")
             (Argparse.getattr
                (<["data_width" := VInt 64]>
                   (Argparse.add_defaults AxiDpramGen.parser ∅))
                "a_interleave")
             (Argparse.getattr
                (<["data_width" := VInt 64]>
                   (Argparse.add_defaults AxiDpramGen.parser ∅))
                "b_interleave") sz ].
Proof.
  apply (dpram_valid_cli_builds_wrapper
           [Argparse.Opt "--data_width" (Some "64")] (fun _ => None)).
  - vm_compute. reflexivity.
  - vm_compute. reflexivity.
  - vm_compute. reflexivity.
Defined.

(** ** Domains of the parsed values *)













(** ** Rejected command lines *)

Lemma consume_extras (p : list Argparse.Argument) (argv : list Argparse.token) :
  forall (ns r : gmap string value),
    Argparse.consume p argv ns true <> Argparse.Parsed r.
Proof.
  induction argv as [|[o a|s] argv IH]; intros ns r; cbn [Argparse.consume];
    [discriminate| |apply IH].
  destruct (Argparse.find_option p o) as [arg|]; [|apply IH].
  destruct (Argparse.action arg), a;
    try discriminate; try apply IH.
  destruct (Argparse.get_values _ _ _); [apply IH|discriminate].
Qed.

Lemma consume_parsed_iff (p : list Argparse.Argument)
    (argv : list Argparse.token) :
  forall ns : gmap string value,
    (exists r, Argparse.consume p argv ns false = Argparse.Parsed r)
    <-> Forall (fun t => token_accepted p t = true) argv.
Proof.
  induction argv as [|t argv IH]; intros ns.
  { split; [by constructor|]. intros _. by exists ns. }
  rewrite Forall_cons. cbn [Argparse.consume].
  destruct t as [o a|s]; cbn [token_accepted].
  2:{ split; [intros [r H]; by apply consume_extras in H|by intros [[=] _]]. }
  destruct (Argparse.find_option p o) as [arg|].
  2:{ split; [intros [r H]; by apply consume_extras in H|by intros [[=] _]]. }
  destruct (Argparse.action arg), a as [s|];
    try (split; [by intros [r [=]]|by intros [[=] _]]).
  - destruct (Argparse.get_values _ _ _);
      [rewrite IH; tauto|split; [by intros [r [=]]|by intros [[=] _]]].
  - rewrite IH; tauto.
Qed.

(** A command line is parsed into a namespace exactly when every one of
    its tokens is accepted: one occurrence of an option with a value
    outside its choices (or of an unknown option, a stray word, or
    [-h]) makes the parse fail wherever it stands, even if a later
    occurrence of the same option is valid. *)
Theorem parse_args_succeeds_iff
    (p : list Argparse.Argument) (argv : list Argparse.token)
    (ns : gmap string value) :
  (exists r, Argparse.parse_args p argv ns = Argparse.Parsed r)
  <-> Forall (fun t => token_accepted p t = true) argv.
Proof. apply consume_parsed_iff. Qed.




(** ** Values that only the JSON document gives *)



(** ** A JSON file that cannot be opened *)

Lemma import_json_missing (p : list Argparse.Argument)
    (argv : list Argparse.token) (fs : string -> option (gmap string value))
    (args : gmap string value) (path : string) :
  Argparse.getattr args "json" = VStr path -> path <> "" -> fs path = None ->
  Gen.import_json p argv fs args = ([], inl (Uncaught (FileNotFoundError path))).
Proof.
  intros Hjson Hpath Hfs. unfold Gen.import_json.
  rewrite Hjson, Hfs. cbn [Py.truthy].
  by destruct (String.eqb_spec path "").
Qed.

(** When the file named by [--json] cannot be opened, the SPI slave
    generator stops with the exception of [open] before any template
    is printed, any wrapper is constructed or any builder operation
    runs. *)
Theorem json_file_missing_spi
    (argv : list Argparse.token) (fs : string -> option (gmap string value))
    (args : gmap string value) (path : string) :
  Argparse.parse_args AxiSpiSlaveGen.parser argv ∅ = Argparse.Parsed args ->
  Argparse.getattr args "json" = VStr path -> path <> "" -> fs path = None ->
  AxiSpiSlaveGen.main argv fs
  = ([], inl (Uncaught (FileNotFoundError path))).
Proof.
  intros Hparse Hjson Hpath Hfs. unfold AxiSpiSlaveGen.main. rewrite Hparse.
  cbn [Gen.run_parse]. rewrite rbind_rret_l.
  by rewrite (import_json_missing _ _ _ _ path).
Qed.

Lemma json_file_missing_spi_witness :
  AxiSpiSlaveGen.main
    [Argparse.Opt "--json" (Some "nofile.json"); Argparse.Opt "--build" None]
    (fun _ => None)
  = ([], inl (Uncaught (FileNotFoundError "nofile.json"))).
Proof.
  apply (json_file_missing_spi
           [Argparse.Opt "--json" (Some "nofile.json");
            Argparse.Opt "--build" None] (fun _ => None)
           (<["build" := VBool true]>
              (<["json" := VStr "nofile.json"]>
                 (Argparse.add_defaults AxiSpiSlaveGen.parser ∅)))
           "nofile.json").
  - vm_compute. reflexivity.
  - vm_compute. reflexivity.
  - discriminate.
  - reflexivity.
Defined.

(** The same in the dual-port memory generator, once the parameter
    check has passed on the command-line values: no template, no
    builder operation, no wrapper. *)
Theorem json_file_missing_dpram
    (argv : list Argparse.token) (fs : string -> option (gmap string value))
    (args : gmap string value) (path : string) :
  Argparse.parse_args AxiDpramGen.parser argv ∅ = Argparse.Parsed args ->
  violations args = [] ->
  Argparse.getattr args "json" = VStr path -> path <> "" -> fs path = None ->
  AxiDpramGen.main argv fs
  = ([], inl (Uncaught (FileNotFoundError path))).
Proof.
  intros Hparse Hviol Hjson Hpath Hfs.
  pose proof (violations_nil _ Hviol) as Hall.
  unfold parameter_checks in Hall.
  repeat (apply Forall_cons in Hall as [?H Hall]). cbn [fst snd] in *.
  unfold AxiDpramGen.main. rewrite Hparse. cbn [Gen.run_parse].
  rewrite rbind_rret_l.
  rewrite !parameter_check_pass, !rbind_rret_l by done.
  by rewrite (import_json_missing _ _ _ _ path).
Qed.

Lemma json_file_missing_dpram_witness :
  AxiDpramGen.main
    [Argparse.Opt "--json" (Some "nofile.json"); Argparse.Opt "--build" None]
    (fun _ => None)
  = ([], inl (Uncaught (FileNotFoundError "nofile.json"))).
Proof.
  apply (json_file_missing_dpram
           [Argparse.Opt "--json" (Some "nofile.json");
            Argparse.Opt "--build" None] (fun _ => None)
           (<["build" := VBool true]>
              (<["json" := VStr "nofile.json"]>
                 (Argparse.add_defaults AxiDpramGen.parser ∅)))
           "nofile.json").
  - vm_compute. reflexivity.
  - vm_compute. reflexivity.
  - vm_compute. reflexivity.
  - discriminate.
  - reflexivity.
Defined.

(** ** All ports of the interconnect wrapper *)





(** * Further properties of the build name *)

Lemma rfind_from_lacks (c : ascii) (s : string) :
  forall i found, lacks c s = true -> Py.rfind_from c s i found = found.
Proof.
  induction s as [|a s IH]; intros i found H; [done|].
  simpl in H. apply andb_true_iff in H as [Ha Hs].
  simpl. apply negb_true_iff in Ha. rewrite Ha. by apply IH.
Qed.

Lemma rfind_from_ge (c : ascii) (s : string) :
  forall i found, found <= i -> found <= Py.rfind_from c s i found.
Proof.
  induction s as [|a s IH]; intros i found H; simpl; [lia|].
  destruct (Ascii.eqb a c).
  - apply Z.le_trans with i; [done|]. apply IH. lia.
  - apply IH. lia.
Qed.

Lemma rfind_from_extension (root ext : string) :
  lacks "." ext = true ->
  forall i found,
    Py.rfind_from "." (root +:+ "." +:+ ext) i found
    = i + Z.of_nat (String.length root).
Proof.
  intros Hext. induction root as [|a root IH]; intros i found.
  - simpl. rewrite rfind_from_lacks by done. lia.
  - simpl String.append. simpl Py.rfind_from. rewrite IH.
    simpl String.length. lia.
Qed.

Lemma lacks_app (c : ascii) (s t : string) :
  lacks c s = true -> lacks c t = true -> lacks c (s +:+ t) = true.
Proof.
  intros Hs Ht. induction s as [|a s IH]; [done|].
  simpl in *. apply andb_true_iff in Hs as [-> Hs]. by apply IH.
Qed.

Lemma substring_prefix (s t : string) :
  substring 0 (String.length s) (s +:+ t) = s.
Proof.
  induction s as [|a s IH]; simpl; [by destruct t|]. by rewrite IH.
Qed.

Lemma splitext_root_extension (root ext : string) :
  lacks "/" root = true -> Py.has_non_dot root = true ->
  lacks "/" ext = true -> lacks "." ext = true ->
  Py.splitext_root (root +:+ "." +:+ ext) = root.
Proof.
  intros Hr Hn He Hd. unfold Py.splitext_root, Py.rfind, Py.slice.
  rewrite (rfind_from_lacks "/") by (by apply lacks_app; [|apply (lacks_app _ ".")]).
  rewrite rfind_from_extension by done.
  replace (Z.to_nat (-1 + 1)) with 0%nat by lia.
  replace (Z.to_nat 0) with 0%nat by lia.
  replace (Z.to_nat (0 + Z.of_nat (String.length root) - (-1 + 1)))
    with (String.length root) by lia.
  replace (Z.to_nat (0 + Z.of_nat (String.length root) - 0))
    with (String.length root) by lia.
  rewrite substring_prefix, Hn.
  replace (Z.gtb (0 + Z.of_nat (String.length root)) (-1)) with true; [done|].
  symmetry. apply Z.gtb_gt. lia.
Qed.

Lemma splitext_root_plain (s : string) :
  lacks "." s = true -> Py.splitext_root s = s.
Proof.
  intros H. unfold Py.splitext_root, Py.rfind.
  rewrite (rfind_from_lacks ".") by done.
  pose proof (rfind_from_ge "/" s 0 (-1) ltac:(lia)) as Hge.
  replace (Z.gtb (-1) (Py.rfind_from "/" s 0 (-1))) with false; [done|].
  symmetry. rewrite Z.gtb_ltb. apply Z.ltb_ge. lia.
Qed.

Lemma dpram_prepared_name
    (argv : list Argparse.token) (fs : string -> option (gmap string value))
    (args : gmap string value) (name : string) :
  Argparse.parse_args AxiDpramGen.parser argv ∅ = Argparse.Parsed args ->
  violations args = [] ->
  Py.truthy (Argparse.getattr args "json") = false ->
  Py.truthy (Argparse.getattr args "build") = true ->
  Argparse.getattr args "build_name" = VStr name ->
  prepared_names (fst (AxiDpramGen.main argv fs))
  = [VStr (Py.splitext_root name)].
Proof.
  intros Hparse Hviol Hjson Hbuild Hbn.
  pose proof (violations_nil _ Hviol) as Hall.
  unfold parameter_checks in Hall.
  repeat (apply Forall_cons in Hall as [?H Hall]). cbn [fst snd] in *.
  destruct (contains_ints _ _ H) as (d & Hd & _).
  destruct (contains_ints _ _ H0) as (a & Ha & _).
  unfold AxiDpramGen.main. rewrite Hparse. cbn [Gen.run_parse].
  rewrite rbind_rret_l.
  rewrite !parameter_check_pass, !rbind_rret_l by done.
  unfold Gen.import_json. rewrite Hjson, rbind_rret_l, Hbn.
  destruct (dpram_construct_numeric
              (Argparse.getattr args "data_width")
              (Argparse.getattr args "addr_width")
              (Argparse.getattr args "id_width")
              (Argparse.getattr args "a_pip_out")
              (Argparse.getattr args "b_pip_out")
              (Argparse.getattr args "a_interleave")
              (Argparse.getattr args "b_interleave") a d Ha Hd)
    as (p & m & sz & Hc & Hsub).
  destruct (Py.truthy (Argparse.getattr args "json_template"));
    cbn [Gen.when emit rret rbind app];
    rewrite !getattr_insert_ne by done; rewrite Hbuild;
    cbn [Gen.when emit rret rbind app];
    rewrite ?getattr_insert_ne by done; unfold Gen.create; rewrite Hc;
    cbn [Gen.when emit rret rbind app fst snd prepared_names omap list_omap];
    unfold Argparse.getattr; by rewrite lookup_insert.
Qed.

(** "Remove build extension when specified": when the dual-port memory
    generator is asked to build a project named root.ext, where root
    holds no slash and some character other than a dot and ext holds
    neither a dot nor a slash, the builder is prepared once, with the
    name root. *)
Theorem dpram_build_name_extension
    (argv : list Argparse.token) (fs : string -> option (gmap string value))
    (args : gmap string value) (root ext : string) :
  Argparse.parse_args AxiDpramGen.parser argv ∅ = Argparse.Parsed args ->
  violations args = [] ->
  Py.truthy (Argparse.getattr args "json") = false ->
  Py.truthy (Argparse.getattr args "build") = true ->
  Argparse.getattr args "build_name" = VStr (root +:+ "." +:+ ext) ->
  lacks "/" root = true -> Py.has_non_dot root = true ->
  lacks "/" ext = true -> lacks "." ext = true ->
  prepared_names (fst (AxiDpramGen.main argv fs)) = [VStr root].
Proof.
  intros Hparse Hviol Hjson Hbuild Hbn Hr Hn He Hd.
  rewrite (dpram_prepared_name argv fs args _ Hparse Hviol Hjson Hbuild Hbn).
  by rewrite splitext_root_extension.
Qed.

Lemma dpram_build_name_extension_witness :
  prepared_names
    (fst (AxiDpramGen.main
            [Argparse.Opt "--build" None;
             Argparse.Opt "--build-name" (Some "dpram.tar.gz")]
            (fun _ => None)))
  = [VStr "dpram.tar"].
Proof.
  apply (dpram_build_name_extension
           [Argparse.Opt "--build" None;
            Argparse.Opt "--build-name" (Some "dpram.tar.gz")]
           (fun _ => None)
           (<["build_name" := VStr "dpram.tar.gz"]>
              (<["build" := VBool true]>
                 (Argparse.add_defaults AxiDpramGen.parser ∅)))
           "dpram.tar" "gz").
  - vm_compute. reflexivity.
  - vm_compute. reflexivity.
  - vm_compute. reflexivity.
  - vm_compute. reflexivity.
  - vm_compute. reflexivity.
  - reflexivity.
  - reflexivity.
  - reflexivity.
  - reflexivity.
Defined.

(** A build name that holds no dot is handed to the builder unchanged
    by the dual-port memory generator; the default name is one. *)
Theorem dpram_build_name_kept
    (argv : list Argparse.token) (fs : string -> option (gmap string value))
    (args : gmap string value) (name : string) :
  Argparse.parse_args AxiDpramGen.parser argv ∅ = Argparse.Parsed args ->
  violations args = [] ->
  Py.truthy (Argparse.getattr args "json") = false ->
  Py.truthy (Argparse.getattr args "build") = true ->
  Argparse.getattr args "build_name" = VStr name ->
  lacks "." name = true ->
  prepared_names (fst (AxiDpramGen.main argv fs)) = [VStr name].
Proof.
  intros Hparse Hviol Hjson Hbuild Hbn Hd.
  rewrite (dpram_prepared_name argv fs args _ Hparse Hviol Hjson Hbuild Hbn).
  by rewrite splitext_root_plain.
Qed.

Lemma dpram_build_name_kept_witness :
  prepared_names
    (fst (AxiDpramGen.main [Argparse.Opt "--build" None] (fun _ => None)))
  = [VStr "axi_dpram_wrapper"].
Proof.
  apply (dpram_build_name_kept
           [Argparse.Opt "--build" None] (fun _ => None)
           (<["build" := VBool true]>
              (Argparse.add_defaults AxiDpramGen.parser ∅))
           "axi_dpram_wrapper").
  - vm_compute. reflexivity.
  - vm_compute. reflexivity.
  - vm_compute. reflexivity.
  - vm_compute. reflexivity.
  - vm_compute. reflexivity.
  - reflexivity.
Defined.
